(** * Response decoding of the JVC projector command model

    Shallow embedding of [jvcprojector/command.py] ([JvcCommand.response] and
    the [JvcCommand.formatters] table) and of the error classes of
    [jvcprojector/error.py].

    Python [str] values are modelled as Rocq [string]s whose characters are
    the code points 0..255 (Latin-1); the projector only sends ASCII. *)

From Stdlib Require Import Ascii String ZArith List Bool Lia.
From Stdlib Require Import Numbers.DecimalString.
From Stdlib Require Floats.
Import ListNotations.
Open Scope string_scope.

(** ** Python runtime pieces used by [command.py] *)

(** Exceptions that can leave or be caught inside [JvcCommand.response]. *)
Inductive exn : Type :=
| ValueError
| KeyError
| IndexError
| TypeError.

(** Result of reading the [response] property: a Python value [str | None],
    or an exception propagating to the caller. *)
Inductive outcome : Type :=
| Ret (v : option string)
| Raise (e : exn).

(** Result of calling a formatter lambda. *)
Inductive py_res : Type :=
| Ok (s : string)
| Err (e : exn).

(** [str.isspace] on the code points 0..255: \t \n \x0b \x0c \r, \x1c..\x1f,
    space, \x85 and \xa0. *)
Definition is_py_space (c : ascii) : bool :=
  let n := nat_of_ascii c in
  (((9 <=? n) && (n <=? 13)) || ((28 <=? n) && (n <=? 32))
  || (n =? 133) || (n =? 160))%nat.

Fixpoint drop_space (l : list ascii) : list ascii :=
  match l with
  | c :: l' => if is_py_space c then drop_space l' else l
  | [] => []
  end.

(** [str.strip()] *)
Definition py_strip (s : string) : string :=
  string_of_list_ascii
    (rev (drop_space (rev (drop_space (list_ascii_of_string s))))).

(** Value of one base-16 digit. *)
Definition hex_val (c : ascii) : option Z :=
  let n := Z.of_nat (nat_of_ascii c) in
  if (48 <=? n)%Z && (n <=? 57)%Z then Some (n - 48)%Z
  else if (65 <=? n)%Z && (n <=? 70)%Z then Some (n - 55)%Z
  else if (97 <=? n)%Z && (n <=? 102)%Z then Some (n - 87)%Z
  else None.

(** Digits after the first one; a single [_] may separate two digits. *)
Fixpoint digits_tail (acc : Z) (l : list ascii) : Z * list ascii :=
  match l with
  | c :: l' =>
      match hex_val c with
      | Some d => digits_tail (acc * 16 + d)%Z l'
      | None =>
          if Ascii.eqb c "_" then
            match l' with
            | c2 :: l'' =>
                match hex_val c2 with
                | Some d => digits_tail (acc * 16 + d)%Z l''
                | None => (acc, l)
                end
            | [] => (acc, l)
            end
          else (acc, l)
      end
  | [] => (acc, [])
  end.

Definition parse_digits (l : list ascii) : option (Z * list ascii) :=
  match l with
  | c :: l' =>
      match hex_val c with
      | Some d => Some (digits_tail d l')
      | None => None
      end
  | [] => None
  end.

(** [int(s, 16)]: surrounding whitespace, an optional sign, an optional
    [0x]/[0X] prefix (which may be followed by one [_]), then base-16 digits
    with single underscores between them.  [None] is [ValueError]. *)
Definition py_int16 (s : string) : option Z :=
  let l := drop_space (list_ascii_of_string s) in
  let '(neg, l) :=
    match l with
    | "-"%char :: l' => (true, l')
    | "+"%char :: l' => (false, l')
    | _ => (false, l)
    end in
  let l :=
    match l with
    | "0"%char :: x :: l' =>
        if Ascii.eqb x "x" || Ascii.eqb x "X" then
          match l' with
          | "_"%char :: l'' => l''
          | _ => l'
          end
        else l
    | _ => l
    end in
  match parse_digits l with
  | Some (v, rest) =>
      if forallb is_py_space rest then Some (if neg then (- v)%Z else v)
      else None
  | None => None
  end.

(** [str(n)] for an integer. *)
Definition py_str_int (z : Z) : string :=
  NilEmpty.string_of_int (Z.to_int z).

(** [lst[i]] on a Python list, negative indices counting from the end;
    [None] is [IndexError]. *)
Definition py_list_get {A : Type} (l : list A) (i : Z) : option A :=
  let n := Z.of_nat (length l) in
  if (0 <=? i)%Z && (i <? n)%Z then nth_error l (Z.to_nat i)
  else if (- n <=? i)%Z && (i <? 0)%Z then nth_error l (Z.to_nat (n + i))
  else None.

(** A dict is an association list in insertion order. *)
Fixpoint dict_get {V : Type} (d : list (string * V)) (k : string) : option V :=
  match d with
  | (k', v) :: d' => if String.eqb k k' then Some v else dict_get d' k
  | [] => None
  end.

(** [d[k] = v]: an existing key keeps its position and takes the new value,
    a new key goes to the end. *)
Fixpoint dict_set {V : Type} (d : list (string * V)) (k : string) (v : V)
  : list (string * V) :=
  match d with
  | (k', v') :: d' =>
      if String.eqb k k' then (k', v) :: d' else (k', v') :: dict_set d' k v
  | [] => [(k, v)]
  end.

(** A dict literal [{k1: v1, k2: v2, ...}] evaluates its entries left to
    right into an empty dict; a repeated key overwrites the earlier value. *)
Definition dict_lit {V : Type} (entries : list (string * V))
  : list (string * V) :=
  fold_left (fun d kv => dict_set d (fst kv) (snd kv)) entries [].

(** ** The regular expressions of the formatter table

    Every key of [JvcCommand.formatters] is built from literal characters,
    capture groups of one or more [.] ([(.)], [(..)], [(....)]), the capture
    group [(.+)] and non-capturing alternations of literal words
    ([(?:IP|IFIN)]).  [re_pattern] parses that fragment of Python's [re]
    syntax; [re_search] runs [re.search("^" + pat + "$", s)]. *)
Inductive atom : Type :=
| ALit (c : ascii)              (* a literal character *)
| AAlt (alts : list string)     (* (?:w1|w2|...) *)
| ACap (n : nat)                (* a capture group of n dots *)
| ACapPlus.                     (* (.+) *)

Definition is_meta (c : ascii) : bool :=
  existsb (Ascii.eqb c)
    ["."; "^"; "$"; "*"; "+"; "?"; "{"; "}"; "["; "]"; "\"; "|"; "("; ")"]%char.

(** Body of [(?:...)]: literal words separated by [|], up to [)]. *)
Fixpoint read_alts (cur : list ascii) (acc : list string) (l : list ascii)
  : option (list string * list ascii) :=
  match l with
  | ")"%char :: rest => Some (app acc [string_of_list_ascii cur], rest)
  | "|"%char :: rest => read_alts [] (app acc [string_of_list_ascii cur]) rest
  | c :: rest => if is_meta c then None else read_alts (app cur [c]) acc rest
  | [] => None
  end.

(** Body of a capture group: [.+)] or [n] dots followed by [)]. *)
Fixpoint read_dots (n : nat) (l : list ascii) : option (atom * list ascii) :=
  match l with
  | "."%char :: "+"%char :: ")"%char :: rest =>
      match n with 0 => Some (ACapPlus, rest) | S _ => None end
  | "."%char :: rest => read_dots (S n) rest
  | ")"%char :: rest => match n with 0 => None | S _ => Some (ACap n, rest) end
  | _ => None
  end.

Fixpoint parse_atoms (fuel : nat) (l : list ascii) : option (list atom) :=
  match fuel with
  | 0 => None
  | S fuel' =>
      match l with
      | [] => Some []
      | "("%char :: "?"%char :: ":"%char :: l' =>
          match read_alts [] [] l' with
          | Some (alts, rest) => option_map (cons (AAlt alts)) (parse_atoms fuel' rest)
          | None => None
          end
      | "("%char :: l' =>
          match read_dots 0 l' with
          | Some (a, rest) => option_map (cons a) (parse_atoms fuel' rest)
          | None => None
          end
      | c :: l' =>
          if is_meta c then None else option_map (cons (ALit c)) (parse_atoms fuel' l')
      end
  end.

(** [None]: a pattern outside the fragment (no key of the table is one). *)
Definition re_pattern (pat : string) : option (list atom) :=
  let l := list_ascii_of_string pat in parse_atoms (S (length l)) l.

(** [.] matches every character but a newline. *)
Definition dot (c : ascii) : bool := negb (Ascii.eqb c "010"%char).

Fixpoint take_dots (n : nat) (l : list ascii) : option (list ascii * list ascii) :=
  match n with
  | 0 => Some ([], l)
  | S n' =>
      match l with
      | c :: l' =>
          if dot c then
            match take_dots n' l' with
            | Some (g, rest) => Some (c :: g, rest)
            | None => None
            end
          else None
      | [] => None
      end
  end.

Fixpoint strip_prefix (p l : list ascii) : option (list ascii) :=
  match p, l with
  | [], _ => Some l
  | c :: p', c' :: l' => if Ascii.eqb c c' then strip_prefix p' l' else None
  | _ :: _, [] => None
  end.

(** Number of characters [.+] can take at most. *)
Fixpoint dot_run (l : list ascii) : nat :=
  match l with
  | c :: l' => if dot c then S (dot_run l') else 0
  | [] => 0
  end.

(** First success among [f a1], [f a2], ... (alternation, left to right). *)
Fixpoint first_some {A B : Type} (f : A -> option B) (l : list A) : option B :=
  match l with
  | a :: l' => match f a with Some b => Some b | None => first_some f l' end
  | [] => None
  end.

(** First success among [f k], [f (k-1)], ..., [f 1] (greedy [+]). *)
Fixpoint greedy {B : Type} (f : nat -> option B) (k : nat) : option B :=
  match k with
  | 0 => None
  | S k' => match f k with Some b => Some b | None => greedy f k' end
  end.

(** [$] without MULTILINE: at the end, or before a newline that ends the
    string. *)
Definition at_end (l : list ascii) : bool :=
  match l with
  | [] => true
  | ["010"%char] => true
  | _ => false
  end.

(** Backtracking match of the atoms from the current position; on success
    the captured groups in order and the number of characters left after
    [$] (0, or 1 for a final newline). *)
Fixpoint mtch (ps : list atom) (l : list ascii) : option (list string * nat) :=
  match ps with
  | [] => if at_end l then Some ([], length l) else None
  | ALit c :: ps' =>
      match l with
      | c' :: l' => if Ascii.eqb c c' then mtch ps' l' else None
      | [] => None
      end
  | AAlt alts :: ps' =>
      first_some
        (fun w => match strip_prefix (list_ascii_of_string w) l with
                  | Some l' => mtch ps' l'
                  | None => None
                  end) alts
  | ACap n :: ps' =>
      match take_dots n l with
      | Some (g, l') =>
          option_map (fun r => (string_of_list_ascii g :: fst r, snd r)) (mtch ps' l')
      | None => None
      end
  | ACapPlus :: ps' =>
      greedy
        (fun i => option_map
                    (fun r => (string_of_list_ascii (firstn i l) :: fst r, snd r))
                    (mtch ps' (skipn i l)))
        (dot_run l)
  end.

(** A match object: [m[0]] is the matched text, [m[i]] the i-th group. *)
Record match_obj : Type := { m_whole : string; m_groups : list string }.

(** [m[i]]; [None] is [IndexError: no such group]. *)
Definition m_get (m : match_obj) (i : nat) : option string :=
  match i with
  | 0 => Some (m_whole m)
  | S j => nth_error (m_groups m) j
  end.

(** [re.search(r"^" + pat + r"$", s)] *)
Definition re_search (pat s : string) : option match_obj :=
  match re_pattern pat with
  | Some ps =>
      match mtch ps (list_ascii_of_string s) with
      | Some (gs, rest_len) =>
          Some {| m_whole := substring 0 (String.length s - rest_len) s; m_groups := gs |}
      | None => None
      end
  | None => None
  end.

(** ** [jvcprojector/const.py] (the constants the table uses) *)
Definition const_OFF : string := "off".
Definition const_STANDBY : string := "standby".
Definition const_ON : string := "on".
Definition const_WARMING : string := "warming".
Definition const_COOLING : string := "cooling".
Definition const_ERROR : string := "error".
Definition const_HDMI1 : string := "hdmi1".
Definition const_HDMI2 : string := "hdmi2".
Definition const_NOSIGNAL : string := "nosignal".
Definition const_SIGNAL : string := "signal".

(** ** The formatters of [JvcCommand.formatters] *)


(** [int(r[i], 16)] inside a lambda. *)
Definition grp_int16 (r : match_obj) (i : nat) : py_res + Z :=
  match m_get r i with
  | None => inl (Err IndexError)
  | Some g =>
      match py_int16 g with
      | Some z => inr z
      | None => inl (Err ValueError)
      end
  end.

(** [lambda r: str(int(r[1], 16))] *)
Definition fmt_IFLT (r : match_obj) : py_res :=
  match grp_int16 r 1 with
  | inl e => e
  | inr z => Ok (py_str_int z)
  end.

(** [lambda r: r[1].strip()] *)
Definition fmt_MD (r : match_obj) : py_res :=
  match m_get r 1 with
  | None => Err IndexError
  | Some g => Ok (py_strip g)
  end.

(** [s.replace(" ", "-")] *)
Definition space_to_dash (l : list ascii) : list ascii :=
  map (fun c => if Ascii.eqb c " " then "-"%char else c) l.

(** [re.sub(r"-+", "-", s)]: every run of dashes becomes one dash. *)
Fixpoint squeeze_dashes (prev_dash : bool) (l : list ascii) : list ascii :=
  match l with
  | c :: l' =>
      if Ascii.eqb c "-" then
        if prev_dash then squeeze_dashes true l' else c :: squeeze_dashes true l'
      else c :: squeeze_dashes false l'
  | [] => []
  end.

(** [lambda r: re.sub(r"-+", "-", r[1].replace(" ", "-"))] *)
Definition fmt_LSMA (r : match_obj) : py_res :=
  match m_get r 1 with
  | None => Err IndexError
  | Some g =>
      Ok (string_of_list_ascii
            (squeeze_dashes false (space_to_dash (list_ascii_of_string g))))
  end.

(** [lambda r: f"{int(r[1], 16)}.{int(r[2], 16)}.{int(r[3], 16)}.{int(r[4], 16)}"],
    the fields evaluated left to right. *)
Definition fmt_LSIP (r : match_obj) : py_res :=
  match grp_int16 r 1 with
  | inl e => e
  | inr a =>
  match grp_int16 r 2 with
  | inl e => e
  | inr b =>
  match grp_int16 r 3 with
  | inl e => e
  | inr c =>
  match grp_int16 r 4 with
  | inl e => e
  | inr d =>
      Ok (py_str_int a ++ "." ++ py_str_int b ++ "." ++ py_str_int c ++ "."
          ++ py_str_int d)
  end end end end.

(** The four lambdas of the table, named by their key. *)
Inductive lambda : Type :=
| L_IFLT   (* "IFLT(....)" *)
| L_MD     (* "MD(.+)" *)
| L_LSMA   (* "LSMA(.+)" *)
| L_LSIP.  (* "LSIP(..)(..)(..)(..)" *)

(** Calling one of them on the match object. *)
Definition call (f : lambda) (r : match_obj) : py_res :=
  match f with
  | L_IFLT => fmt_IFLT r
  | L_MD => fmt_MD r
  | L_LSMA => fmt_LSMA r
  | L_LSIP => fmt_LSIP r
  end.

(** A table value: a [list] (entries [str | None]), a [dict] from [str] to
    [str], or a callable of the match object. *)
Inductive fmt : Type :=
| FList (l : list (option string))
| FDict (d : list (string * string))
| FCall (f : lambda).

(** The entries of the dict literal [JvcCommand.formatters], in source order
    (the key ["IFCM(.)"] is written twice). *)
Definition formatters_literal : list (string * fmt) := [
    ("PW(.)", FList [Some const_STANDBY; Some const_ON; Some const_COOLING; Some const_WARMING; Some const_ERROR]);
    ("(?:IP|IFIN)(.)", FDict (dict_lit [("0", "svideo"); ("1", "video"); ("2", "component"); ("3", "pc"); ("6", const_HDMI1); ("7", const_HDMI2)]));
    ("SC(.)", FList [Some const_NOSIGNAL; Some const_SIGNAL]);
    ("IFIS(..)", FDict (dict_lit [("02", "480p"); ("03", "576p"); ("04", "720p50"); ("05", "720p60"); ("08", "1080p24"); ("09", "1080p50"); ("0A", "1080p60"); ("0B", "No Signal"); ("0F", "Out of Range"); ("10", "4k(4096)60"); ("11", "4k(4096)50"); ("12", "4k(4096)30"); ("13", "4k(4096)25"); ("14", "4k(4096)24"); ("15", "4k(3840)60"); ("16", "4k(3840)50"); ("17", "4k(3840)30"); ("18", "4k(3840)25"); ("19", "4k(3840)24"); ("1C", "1080p25"); ("1D", "1080p30"); ("1E", "2048x1080 p24"); ("1F", "2048x1080 p25"); ("20", "2048x1080 p30"); ("21", "2048x1080 p50"); ("22", "2048x1080 p60"); ("25", "VGA(640x480)"); ("26", "SVGA(800x600)"); ("2C", "WUXGA(1920x1200)"); ("30", "UXGA(1600x1200)"); ("31", "QXGA"); ("3D", "WQHD60")]));
    ("IFLT(....)", FCall L_IFLT);
    ("IFCM(.)", FList [Some "no_data"; Some "bt601"; Some "bt709"; Some "xvycc601"; Some "xvycc709"; Some "sycc601"; Some "adobe_ycc601"; Some "adobe_rgb"; Some "bt2020_cl"; Some "bt2020_ncl"; Some "srgb"; Some "dci_p3_d65"; Some "dci_p3_theater"]);
    ("MD(.+)", FCall L_MD);
    ("PMPM(..)", FDict (dict_lit [("01", "cinema"); ("03", "natural"); ("0B", "frame_adapt_hdr"); ("0C", "sdr1"); ("0D", "sdr2"); ("0E", "hdr1"); ("0F", "hdr2"); ("14", "hlg"); ("15", "hdr10+"); ("17", "filmmaker"); ("18", "frame_adapt_hdr2"); ("1B", "vivid")]));
    ("PMCT(.)", FDict (dict_lit [("0", "auto"); ("1", "sdr"); ("2", "hdr10+"); ("3", "hdr10"); ("4", "hlg")]));
    ("PMAT(.)", FDict (dict_lit [("1", "sdr"); ("2", "hdr10+"); ("3", "hdr10"); ("4", "hlg")]));
    ("PMDI(.)", FList [Some "off"; Some "auto1"; Some "auto2"]);
    ("PMPR(..)", FDict (dict_lit [("00", "off"); ("01", "film1"); ("02", "film2"); ("03", "bt709"); ("04", "cinema"); ("05", "cinema2"); ("06", "anime"); ("07", "anime2"); ("08", "video"); ("09", "vivid"); ("0A", "hdr"); ("0B", "bt2020(wide)"); ("0C", "3d"); ("0D", "thx"); ("0E", "custom1"); ("0F", "custom2"); ("10", "custom3"); ("11", "custom4"); ("12", "custom5"); ("21", "dci"); ("22", "custom6"); ("24", "bt2020(normal)"); ("25", "off(wide)"); ("26", "auto")]));
    ("PMCL(..)", FDict (dict_lit [("00", "5500k"); ("02", "6500k"); ("04", "7500k"); ("08", "9300k"); ("09", "high"); ("0A", "custom1"); ("0B", "custom2"); ("0C", "hdr10"); ("0D", "xenon1"); ("0E", "xenon2"); ("14", "hlg")]));
    ("PMCC(..)", FDict (dict_lit [("00", "5500k"); ("02", "6500k"); ("04", "7500k"); ("08", "9300k"); ("09", "high"); ("0D", "xenon1"); ("0E", "xenon2")]));
    ("PMGT(..)", FDict (dict_lit [("00", "2.2"); ("01", "cinema1"); ("02", "cinema2"); ("04", "custom1"); ("05", "custom2"); ("06", "custom3"); ("07", "hdr_hlg"); ("08", "2.4"); ("09", "2.6"); ("0A", "film1"); ("0B", "film2"); ("0C", "hdr_pq"); ("0D", "pana_pq"); ("10", "thx"); ("15", "hdr_auto")]));
    ("PM(?:CB|LL|US)(.)", FList [Some "off"; Some "on"]);
    ("PMCM(.)", FList [Some "off"; None; None; Some "low"; Some "high"; Some "inverse_telecine"]);
    ("PMME(.)", FList [Some "off"; Some "low"; Some "high"]);
    ("PMLP(.)", FList [Some "low"; Some "med"; Some "high"]);
    ("PMDC(.)", FList [Some "off"; Some "low"; Some "high"; Some "balanced"]);
    ("PMGM(.)", FList [Some "standard"; Some "high-res"]);
    ("ISIL(.)", FList [Some "standard"; Some "enhanced"; Some "super_white"; Some "auto"]);
    ("ISHS(.)", FList [Some "auto"; Some "ycbcr(4:4:4)"; Some "ycbcr(4:2:2)"; Some "rgb"]);
    ("IS3D(.)", FList [Some "2d"; Some "auto"; None; Some "side_by_side"; Some "top_bottom"]);
    ("ISAS(.)", FList [None; None; Some "zoom"; Some "auto"; Some "native"]);
    ("ISMA(.)", FList [None; Some "on"; Some "off"]);
    ("IN(?:FN|FF|ZT|ZW|SL|SR|SU|SD)(.)", FList [Some "stop"; Some "start"]);
    ("IN(?:IP|LL|SC|HA)(.)", FList [Some "off"; Some "on"]);
    ("INIS(.)", FList [Some "front"; Some "front_ceiling"; Some "rear"; Some "rear_ceiling"]);
    ("INVS(.)", FList [Some "off"; Some "a"; Some "b"; Some "c"; Some "d"]);
    ("DSBC(.)", FList [Some "blue"; Some "black"]);
    ("DSMP(.)", FList [Some "left-top"; Some "right-top"; Some "center"; Some "left-bottom"; Some "right-bottom"; Some "left"; Some "right"]);
    ("DS(?:SD|LO)(.)", FList [Some "off"; Some "on"]);
    ("FUTR(.)", FList [Some "off"; Some "power"; Some "anamo"; Some "ins1"; Some "ins2"; Some "ins3"; Some "ins4"; Some "ins5"; Some "ins6"; Some "ins7"; Some "ins8"; Some "ins9"; Some "ins10"]);
    ("FUOT(.)", FList [Some "off"; Some "1hour"; Some "2hour"; Some "3hour"; Some "4hour"]);
    ("FU(?:EM|CF)(.)", FList [Some "off"; Some "on"]);
    ("IFDC(.)", FList [Some "8bit"; Some "10bit"; Some "12bit"]);
    ("IFXV(.)", FList [Some "rgb"; Some "yuv"]);
    ("IFCM(.)", FList [Some "nodata"; Some "bt601"; Some "bt709"; Some "xvycc601"; Some "xvycc709"; Some "sycc601"; Some "adobe_ycc601"; Some "adobe_rgb"; Some "bt2020(constant_luminance)"; Some "bt2020(non-constant_luminance)"; Some "srgb"]);
    ("IFHR(.)", FDict (dict_lit [("0", "sdr"); ("1", "hdr"); ("2", "smpte_st_2084"); ("3", "hybrid_log"); ("F", "none")]));
    ("PMHL(.)", FList [Some "auto"; Some "-2"; Some "-1"; Some "0"; Some "1"; Some "2"]);
    ("PMHP(.)", FList [Some "static"; Some "frame"; Some "scene"]);
    ("PMNM(.)", FList [Some "off"; Some "on"]);
    ("PMNL(.)", FList [Some "reserved"; Some "low"; Some "medium"; Some "high"]);
    ("PMNP(.)", FList [Some "-"; Some "start"]);
    ("LSDS(.)", FList [Some const_OFF; Some const_ON]);
    ("LSMA(.+)", FCall L_LSMA);
    ("LSIP(..)(..)(..)(..)", FCall L_LSIP)
  ].

(** [JvcCommand.formatters]: the dict the literal evaluates to. *)
Definition formatters : list (string * fmt) := dict_lit formatters_literal.

(** ** [JvcCommand] *)
Record JvcCommand : Type := {
  code : string;
  is_ref : bool;
  ack : bool;
  _response : option string
}.

(** [JvcCommand(code, is_ref)] *)
Definition new_command (c : string) (r : bool) : JvcCommand :=
  {| code := c; is_ref := r; ack := false; _response := None |}.

(** The [response] setter. *)
Definition set_response (cmd : JvcCommand) (data : string) : JvcCommand :=
  {| code := code cmd; is_ref := is_ref cmd; ack := ack cmd; _response := Some data |}.

(** Body of the loop for the first matching pattern: every branch returns
    or breaks, and a break returns [val]. *)
Definition apply_fmt (f : fmt) (m : match_obj) (val : string) : outcome :=
  match f with
  | FList l =>
      match m_get m 1 with
      | None => Raise IndexError
      | Some g =>
          match py_int16 g with
          | None => Ret (Some val)                 (* except ValueError *)
          | Some i =>
              match py_list_get l i with
              | Some e => Ret e
              | None => Raise IndexError           (* not KeyError: not caught *)
              end
          end
      end
  | FDict d =>
      match m_get m 1 with
      | None => Raise IndexError
      | Some g =>
          match dict_get d g with
          | Some v => Ret (Some v)
          | None => Ret (Some val)                 (* except KeyError *)
          end
      end
  | FCall f =>
      match call f m with
      | Ok v => Ret (Some v)
      | Err _ => Ret (Some val)                    (* except Exception *)
      end
  end.

(** [for pat, fmt in self.formatters.items(): ...] then [return val]. *)
Fixpoint format_loop (items : list (string * fmt)) (res val : string) : outcome :=
  match items with
  | [] => Ret (Some val)
  | (pat, f) :: rest =>
      match re_search pat res with
      | Some m => apply_fmt f m val
      | None => format_loop rest res val
      end
  end.

(** The [response] property. *)
Definition response (cmd : JvcCommand) : outcome :=
  if negb (is_ref cmd) then Ret None
  else
    match _response cmd with
    | None => Ret None
    | Some r =>
        let res := code cmd ++ r in
        let val := substring (String.length (code cmd))
                     (String.length res - String.length (code cmd)) res in
        format_loop formatters res val
    end.

(** A reference command with a response attached. *)
Definition ref_with (c r : string) : JvcCommand :=
  set_response (new_command c true) r.

(** ** Error classes of [jvcprojector/error.py] *)
Inductive py_class : Type :=
| CException
| CJvcProjectorError
| CJvcProjectorConnectError
| CJvcProjectorCommandError
| CJvcProjectorAuthError.

Definition py_class_eqb (a b : py_class) : bool :=
  match a, b with
  | CException, CException
  | CJvcProjectorError, CJvcProjectorError
  | CJvcProjectorConnectError, CJvcProjectorConnectError
  | CJvcProjectorCommandError, CJvcProjectorCommandError
  | CJvcProjectorAuthError, CJvcProjectorAuthError => true
  | _, _ => false
  end.

(** The base class named in each [class X(Base):] line. *)
Definition py_base (c : py_class) : option py_class :=
  match c with
  | CException => None
  | CJvcProjectorError => Some CException
  | CJvcProjectorConnectError => Some CJvcProjectorError
  | CJvcProjectorCommandError => Some CJvcProjectorError
  | CJvcProjectorAuthError => Some CJvcProjectorError
  end.

Fixpoint issubclass_n (n : nat) (a b : py_class) : bool :=
  py_class_eqb a b ||
  match n, py_base a with
  | S n', Some p => issubclass_n n' p b
  | _, _ => false
  end.

(** [issubclass(a, b)]; the chains of [py_base] have at most 2 steps. *)
Definition issubclass (a b : py_class) : bool := issubclass_n 3 a b.

(** ** Handshake tokens of [command.py] *)
Definition PJOK : string := "PJ_OK".
Definition PJNG : string := "PJ_NG".
Definition PJREQ : string := "PJREQ".
Definition PJACK : string := "PJACK".
Definition PJNAK : string := "PJNAK".

Inductive hs_state : Type :=
| Ready
| Failed (e : py_class).

(** Modelled from the spec: the handshake of [jvcprojector/device.py] (not
    part of the sources), after section 4.2: read the greeting, which must
    be [PJ_OK]; send [PJREQ] (with the credential block); read the
    acknowledgment: [PJACK] gives Ready, [PJNAK] the authentication error,
    anything else the connect error.  A read is [None] on a timeout. *)
Definition handshake (greeting ack_tok : option string) : hs_state :=
  match greeting with
  | Some g =>
      if String.eqb g PJOK then
        match ack_tok with
        | Some a =>
            if String.eqb a PJACK then Ready
            else if String.eqb a PJNAK then Failed CJvcProjectorAuthError
            else Failed CJvcProjectorConnectError
        | None => Failed CJvcProjectorConnectError
        end
      else Failed CJvcProjectorConnectError
  | None => Failed CJvcProjectorConnectError
  end.

(** ** The Home Assistant layer: coordinator, sensors, selects, remote

    Values stored by the coordinator are [str] or [int]. *)
Inductive pyval : Type :=
| PStr (s : string)
| PInt (z : Z).

(** Truth value of a [str | int]. *)
Definition pyval_truthy (v : pyval) : bool :=
  match v with
  | PStr s => negb (String.eqb s EmptyString)
  | PInt z => negb (Z.eqb z 0)
  end.

(** [v in (s1, s2, ...)] for a tuple of strings. *)
Definition pyval_in (v : pyval) (l : list string) : bool :=
  match v with
  | PStr s => existsb (String.eqb s) l
  | PInt _ => false
  end.

(** [str.isdigit] on the code points 0..255: the ASCII digits and the
    superscripts two, three and one. *)
Definition is_py_digit (c : ascii) : bool :=
  let n := nat_of_ascii c in
  (((48 <=? n) && (n <=? 57)) || (n =? 178) || (n =? 179) || (n =? 185))%nat.

Definition py_isdigit (s : string) : bool :=
  let l := list_ascii_of_string s in
  match l with [] => false | _ => forallb is_py_digit l end.

(** Value of one decimal digit for [int()]: only the ASCII digits among
    the code points 0..255 are decimal. *)
Definition dec_val (c : ascii) : option Z :=
  let n := Z.of_nat (nat_of_ascii c) in
  if (48 <=? n)%Z && (n <=? 57)%Z then Some (n - 48)%Z else None.

(** Digits after the first one; a single [_] may separate two digits. *)
Fixpoint dec_tail (acc : Z) (l : list ascii) : Z * list ascii :=
  match l with
  | c :: l' =>
      match dec_val c with
      | Some d => dec_tail (acc * 10 + d)%Z l'
      | None =>
          if Ascii.eqb c "_" then
            match l' with
            | c2 :: l'' =>
                match dec_val c2 with
                | Some d => dec_tail (acc * 10 + d)%Z l''
                | None => (acc, l)
                end
            | [] => (acc, l)
            end
          else (acc, l)
      end
  | [] => (acc, [])
  end.

(** [int(s)] on a [str]: surrounding whitespace, an optional sign, then
    decimal digits with single underscores between them.  [None] is
    [ValueError]. *)
Definition py_int10 (s : string) : option Z :=
  let l := drop_space (list_ascii_of_string s) in
  let '(neg, l) :=
    match l with
    | "-"%char :: l' => (true, l')
    | "+"%char :: l' => (false, l')
    | _ => (false, l)
    end in
  match l with
  | c :: l' =>
      match dec_val c with
      | Some d =>
          let '(v, rest) := dec_tail d l' in
          if forallb is_py_space rest then Some (if neg then (- v)%Z else v)
          else None
      | None => None
      end
  | [] => None
  end.


(** The remaining keys of [jvcprojector/const.py] read by the platforms. *)
Definition const_POWER : string := "power".
Definition const_INPUT : string := "input".
Definition const_SOURCE : string := "source".
Definition const_IFLT : string := "IFLT".
Definition const_IFIN : string := "IFIN".
Definition const_IFIS : string := "IFIS".
Definition const_IFCM : string := "IFCM".
Definition const_MODEL : string := "model".

(** Reference codes of [jvcprojector/command.py] polled by the
    coordinator and sent by the selects. *)
Definition command_IFLT : string := "IFLT".
Definition command_IFIN : string := "IFIN".
Definition command_IFIS : string := "IFIS".
Definition command_PMPM : string := "PMPM".
Definition command_PMCT : string := "PMCT".
Definition command_PMAT : string := "PMAT".

(** The four keys [const.CONTENT_TYPE], [const.CONTENT_TYPE_DIAGNOSTIC],
    [const.SOURCE_CONTENT_TYPE] and [const.PICTURE_MODE] that the
    coordinator and the selects use; [jvcprojector/const.py] does not
    define them, so they are parameters of the model. *)
Record ha_keys : Type := {
  CONTENT_TYPE : string;
  CONTENT_TYPE_DIAGNOSTIC : string;
  SOURCE_CONTENT_TYPE : string;
  PICTURE_MODE : string
}.

(** ** [coordinator.py]: [_async_update_data] *)

(** Exceptions reaching the coordinator: [asyncio.TimeoutError], the
    classes of [error.py], any other [Exception]. *)
Inductive poll_exn : Type :=
| PTimeoutError
| PJvcError (c : py_class)
| POtherError.

Inductive io (A : Type) : Type :=
| IOk (a : A)
| IRaise (e : poll_exn).
Arguments IOk {A} a.
Arguments IRaise {A} e.

(** What the device answers in one poll: the outcome of [connect], of
    [get_state] (a dict whose values are [str | None]), and of [ref] for
    each reference code ([str | None]). *)
Record device : Type := {
  dev_connect : option poll_exn;
  dev_get_state : io (list (string * option string));
  dev_ref : string -> io (option string)
}.

(** Outcome of [_async_update_data]: the data, [UpdateFailed] or
    [ConfigEntryAuthFailed]. *)
Inductive poll_result : Type :=
| Updated (d : list (string * pyval))
| UpdateFailed
| AuthFailed.

(** [{k: v for k, v in state.items() if v is not None}] *)
Definition state_dict (st : list (string * option string)) : list (string * pyval) :=
  fold_left (fun acc kv => match snd kv with
                           | Some v => dict_set acc (fst kv) (PStr v)
                           | None => acc
                           end) st [].

(** The outer [except] clauses, in order. *)
Definition poll_fail (e : poll_exn) : poll_result :=
  match e with
  | PTimeoutError => UpdateFailed
  | PJvcError c =>
      if issubclass c CJvcProjectorAuthError then AuthFailed
      else UpdateFailed      (* ConnectError, then any other Exception *)
  | POtherError => UpdateFailed
  end.

(** The IFLT block: [if raw and raw.isdigit(): result[IFLT] = int(raw)];
    every exception of the block is caught. *)
Definition store_iflt (r : io (option string)) (result : list (string * pyval))
  : list (string * pyval) :=
  match r with
  | IOk (Some raw) =>
      if negb (String.eqb raw EmptyString) && py_isdigit raw then
        match py_int10 raw with
        | Some n => dict_set result const_IFLT (PInt n)
        | None => result                      (* ValueError, caught *)
        end
      else result
  | _ => result
  end.

(** A block [if raw: result[key] = raw], every exception caught. *)
Definition store_if_truthy (r : io (option string)) (key : string)
  (result : list (string * pyval)) : list (string * pyval) :=
  match r with
  | IOk (Some raw) =>
      if String.eqb raw EmptyString then result else dict_set result key (PStr raw)
  | _ => result
  end.

(** [if const.CONTENT_TYPE in result: result[DIAGNOSTIC] = result[CONTENT_TYPE]] *)
Definition mirror_content_type (k : ha_keys) (result : list (string * pyval))
  : list (string * pyval) :=
  match dict_get result (CONTENT_TYPE k) with
  | Some v => dict_set result (CONTENT_TYPE_DIAGNOSTIC k) v
  | None => result
  end.

(** The polls made while the projector is on. *)
Definition poll_on (k : ha_keys) (dev : device) (result : list (string * pyval))
  : list (string * pyval) :=
  let r := store_iflt (dev_ref dev command_IFLT) result in
  let r := store_if_truthy (dev_ref dev command_IFIS) const_IFIS r in
  let r := store_if_truthy (dev_ref dev command_IFIN) const_IFIN r in
  let r := store_if_truthy (dev_ref dev command_PMCT) (CONTENT_TYPE k) r in
  let r := mirror_content_type k r in
  let r := store_if_truthy (dev_ref dev command_PMAT) (SOURCE_CONTENT_TYPE k) r in
  store_if_truthy (dev_ref dev command_PMPM) (PICTURE_MODE k) r.

Definition power_on_in (result : list (string * pyval)) : bool :=
  match dict_get result const_POWER with
  | Some (PStr p) => String.eqb p const_ON
  | _ => false
  end.

(** [_async_update_data] *)
Definition async_update_data (k : ha_keys) (dev : device) : poll_result :=
  match dev_connect dev with
  | Some e => poll_fail e
  | None =>
      match dev_get_state dev with
      | IRaise e => poll_fail e
      | IOk st =>
          let result := state_dict st in
          if power_on_in result then Updated (poll_on k dev result)
          else Updated (dict_set result const_IFLT (PStr "power_off"))
      end
  end.

(** ** [sensor.py]: [JvcSensor.native_value] *)



(** ** [binary_sensor.py] and [remote.py]: power state *)

(** [lambda v: v in (const.ON, const.WARMING) if v else None] on
    [data.get(const.POWER)] *)
Definition binary_power_is_on (data : list (string * pyval)) : option bool :=
  match dict_get data const_POWER with
  | Some v => if pyval_truthy v then Some (pyval_in v [const_ON; const_WARMING]) else None
  | None => None
  end.

(** [JvcProjectorRemote.is_on] *)
Definition remote_is_on (data : list (string * pyval)) : bool :=
  match dict_get data const_POWER with
  | Some v => pyval_in v [const_ON; const_WARMING]
  | None => false
  end.

(** ** [select.py] *)









(** ** [remote.py]: resolving one command of [async_send_command] *)

(** The other constants of [jvcprojector/const.py]. *)
Definition const_PMPM : string := "PMPM".
Definition const_PMCT : string := "PMCT".
Definition const_PMAT : string := "PMAT".
Definition const_PMCV : string := "PMCV".
Definition const_PMDC : string := "PMDC".
Definition const_auto_content_type : string := "auto_content_type".
Definition const_REMOTE_STANDBY : string := "7306".
Definition const_REMOTE_ON : string := "7305".
Definition const_REMOTE_MENU : string := "732E".
Definition const_REMOTE_UP : string := "7301".
Definition const_REMOTE_DOWN : string := "7302".
Definition const_REMOTE_LEFT : string := "7336".
Definition const_REMOTE_RIGHT : string := "7334".
Definition const_REMOTE_OK : string := "732F".
Definition const_REMOTE_BACK : string := "7303".
Definition const_REMOTE_MPC : string := "73F0".
Definition const_REMOTE_HIDE : string := "731D".
Definition const_REMOTE_INFO : string := "7374".
Definition const_REMOTE_INPUT : string := "7308".
Definition const_REMOTE_ADVANCED_MENU : string := "7373".
Definition const_REMOTE_PICTURE_MODE : string := "73F4".
Definition const_REMOTE_COLOR_PROFILE : string := "7388".
Definition const_REMOTE_LENS_CONTROL : string := "7330".
Definition const_REMOTE_SETTING_MEMORY : string := "73D4".
Definition const_REMOTE_GAMMA_SETTINGS : string := "73F5".
Definition const_REMOTE_CMD : string := "738A".
Definition const_REMOTE_MODE_1 : string := "73D8".
Definition const_REMOTE_MODE_2 : string := "73D9".
Definition const_REMOTE_MODE_3 : string := "73DA".
Definition const_REMOTE_HDMI_1 : string := "7370".
Definition const_REMOTE_HDMI_2 : string := "7371".
Definition const_REMOTE_LENS_AP : string := "7320".
Definition const_REMOTE_ANAMO : string := "73C5".
Definition const_REMOTE_GAMMA : string := "7375".
Definition const_REMOTE_COLOR_TEMP : string := "7376".
Definition const_REMOTE_3D_FORMAT : string := "73D6".
Definition const_REMOTE_PIC_ADJ : string := "7372".
Definition const_REMOTE_NATURAL : string := "736A".
Definition const_REMOTE_CINEMA : string := "7368".

(** [REMOTE_BUTTON_MAP] *)
Definition REMOTE_BUTTON_MAP : list (string * string) := dict_lit [
  ("standby", const_REMOTE_STANDBY); ("on", const_REMOTE_ON);
  ("menu", const_REMOTE_MENU); ("up", const_REMOTE_UP);
  ("down", const_REMOTE_DOWN); ("left", const_REMOTE_LEFT);
  ("right", const_REMOTE_RIGHT); ("ok", const_REMOTE_OK);
  ("back", const_REMOTE_BACK); ("mpc", const_REMOTE_MPC);
  ("hide", const_REMOTE_HIDE); ("info", const_REMOTE_INFO);
  ("input", const_REMOTE_INPUT); ("advanced_menu", const_REMOTE_ADVANCED_MENU);
  ("picture_mode", const_REMOTE_PICTURE_MODE);
  ("color_profile", const_REMOTE_COLOR_PROFILE);
  ("lens_control", const_REMOTE_LENS_CONTROL);
  ("setting_memory", const_REMOTE_SETTING_MEMORY);
  ("gamma_settings", const_REMOTE_GAMMA_SETTINGS); ("cmd", const_REMOTE_CMD);
  ("mode_1", const_REMOTE_MODE_1); ("mode_2", const_REMOTE_MODE_2);
  ("mode_3", const_REMOTE_MODE_3); ("hdmi_1", const_REMOTE_HDMI_1);
  ("hdmi_2", const_REMOTE_HDMI_2); ("lens_ap", const_REMOTE_LENS_AP);
  ("anamo", const_REMOTE_ANAMO); ("gamma", const_REMOTE_GAMMA);
  ("color_temp", const_REMOTE_COLOR_TEMP); ("3d_format", const_REMOTE_3D_FORMAT);
  ("pic_adj", const_REMOTE_PIC_ADJ); ("natural", const_REMOTE_NATURAL);
  ("cinema", const_REMOTE_CINEMA)].

(** An attribute of the module [const]: a [str], or another object (the
    dict [REMOTE_BUTTON_MAP], the imported name [Final], the module's own
    attributes). *)
Inductive attr : Type :=
| AStr (s : string)
| AObj.

(** The attributes of the module [jvcprojector/const.py]. *)
Definition const_attrs : list (string * attr) := [
  ("POWER", AStr const_POWER); ("OFF", AStr const_OFF);
  ("STANDBY", AStr const_STANDBY); ("ON", AStr const_ON);
  ("WARMING", AStr const_WARMING); ("COOLING", AStr const_COOLING);
  ("ERROR", AStr const_ERROR); ("INPUT", AStr const_INPUT);
  ("HDMI1", AStr const_HDMI1); ("HDMI2", AStr const_HDMI2);
  ("SOURCE", AStr const_SOURCE); ("NOSIGNAL", AStr const_NOSIGNAL);
  ("SIGNAL", AStr const_SIGNAL); ("IFLT", AStr const_IFLT);
  ("IFIN", AStr const_IFIN); ("IFIS", AStr const_IFIS); ("IFCM", AStr const_IFCM);
  ("MODEL", AStr const_MODEL); ("PMPM", AStr const_PMPM);
  ("PMCT", AStr const_PMCT); ("PMAT", AStr const_PMAT); ("PMCV", AStr const_PMCV);
  ("PMDC", AStr const_PMDC); ("auto_content_type", AStr const_auto_content_type);
  ("REMOTE_STANDBY", AStr const_REMOTE_STANDBY);
  ("REMOTE_ON", AStr const_REMOTE_ON); ("REMOTE_MENU", AStr const_REMOTE_MENU);
  ("REMOTE_UP", AStr const_REMOTE_UP); ("REMOTE_DOWN", AStr const_REMOTE_DOWN);
  ("REMOTE_LEFT", AStr const_REMOTE_LEFT);
  ("REMOTE_RIGHT", AStr const_REMOTE_RIGHT); ("REMOTE_OK", AStr const_REMOTE_OK);
  ("REMOTE_BACK", AStr const_REMOTE_BACK); ("REMOTE_MPC", AStr const_REMOTE_MPC);
  ("REMOTE_HIDE", AStr const_REMOTE_HIDE); ("REMOTE_INFO", AStr const_REMOTE_INFO);
  ("REMOTE_INPUT", AStr const_REMOTE_INPUT);
  ("REMOTE_ADVANCED_MENU", AStr const_REMOTE_ADVANCED_MENU);
  ("REMOTE_PICTURE_MODE", AStr const_REMOTE_PICTURE_MODE);
  ("REMOTE_COLOR_PROFILE", AStr const_REMOTE_COLOR_PROFILE);
  ("REMOTE_LENS_CONTROL", AStr const_REMOTE_LENS_CONTROL);
  ("REMOTE_SETTING_MEMORY", AStr const_REMOTE_SETTING_MEMORY);
  ("REMOTE_GAMMA_SETTINGS", AStr const_REMOTE_GAMMA_SETTINGS);
  ("REMOTE_CMD", AStr const_REMOTE_CMD);
  ("REMOTE_MODE_1", AStr const_REMOTE_MODE_1);
  ("REMOTE_MODE_2", AStr const_REMOTE_MODE_2);
  ("REMOTE_MODE_3", AStr const_REMOTE_MODE_3);
  ("REMOTE_HDMI_1", AStr const_REMOTE_HDMI_1);
  ("REMOTE_HDMI_2", AStr const_REMOTE_HDMI_2);
  ("REMOTE_LENS_AP", AStr const_REMOTE_LENS_AP);
  ("REMOTE_ANAMO", AStr const_REMOTE_ANAMO);
  ("REMOTE_GAMMA", AStr const_REMOTE_GAMMA);
  ("REMOTE_COLOR_TEMP", AStr const_REMOTE_COLOR_TEMP);
  ("REMOTE_3D_FORMAT", AStr const_REMOTE_3D_FORMAT);
  ("REMOTE_PIC_ADJ", AStr const_REMOTE_PIC_ADJ);
  ("REMOTE_NATURAL", AStr const_REMOTE_NATURAL);
  ("REMOTE_CINEMA", AStr const_REMOTE_CINEMA); ("REMOTE_BUTTON_MAP", AObj);
  ("Final", AObj); ("__name__", AObj); ("__doc__", AObj); ("__package__", AObj);
  ("__loader__", AObj); ("__spec__", AObj); ("__file__", AObj);
  ("__cached__", AObj); ("__builtins__", AObj); ("__annotations__", AObj)].

(** [str.lower] and [str.upper] on ASCII characters. *)
Definition ascii_lower (c : ascii) : ascii :=
  let n := nat_of_ascii c in
  if ((65 <=? n) && (n <=? 90))%nat then ascii_of_nat (n + 32) else c.

Definition ascii_upper (c : ascii) : ascii :=
  let n := nat_of_ascii c in
  if ((97 <=? n) && (n <=? 122))%nat then ascii_of_nat (n - 32) else c.

Fixpoint py_lower (s : string) : string :=
  match s with
  | EmptyString => EmptyString
  | String c s' => String (ascii_lower c) (py_lower s')
  end.

Fixpoint py_upper (s : string) : string :=
  match s with
  | EmptyString => EmptyString
  | String c s' => String (ascii_upper c) (py_upper s')
  end.

(** The strings the model covers: every character is ASCII. *)
Definition is_ascii_str (s : string) : bool :=
  forallb (fun c => (nat_of_ascii c <? 128)%nat) (list_ascii_of_string s).

(** [len(cmd) == 4 and all(c in "0123456789ABCDEFabcdef" for c in cmd)] *)
Definition is_raw_code (cmd : string) : bool :=
  (String.length cmd =? 4)%nat &&
  forallb (fun c => existsb (Ascii.eqb c)
                      (list_ascii_of_string "0123456789ABCDEFabcdef"))
          (list_ascii_of_string cmd).

(** The resolution of one [cmd] in [async_send_command]: the [key_code]
    passed to [device.remote], or [None] where [ValueError] is raised.
    [hasattr(const, cmd.upper())] / [getattr] is a lookup in
    [const_attrs]. *)
Definition resolve_remote (cmd : string) : option attr :=
  let cmd_lower := py_lower cmd in
  match dict_get REMOTE_BUTTON_MAP cmd_lower with
  | Some key_code => Some (AStr key_code)
  | None =>
      if String.prefix "remote_" cmd_lower then
        let button_name :=
          substring 7 (String.length cmd_lower - 7) cmd_lower in
        match dict_get REMOTE_BUTTON_MAP button_name with
        | Some key_code => Some (AStr key_code)
        | None => None
        end
      else
        match dict_get const_attrs (py_upper cmd) with
        | Some key_code => Some key_code
        | None =>
            if is_raw_code cmd then Some (AStr (py_upper cmd)) else None
        end
  end.

(** The loop of [async_send_command] once [device.connect] succeeded and
    with [device.remote] succeeding: the key codes sent so far, the
    [_current_activity], and whether [ValueError] was raised. *)
Fixpoint send_keys (cmds : list string) (sent : list attr)
    (activity : option string) : list attr * option string * bool :=
  match cmds with
  | [] => (sent, activity, false)
  | cmd :: rest =>
      match resolve_remote cmd with
      | None => (sent, activity, true)
      | Some key_code =>
          let activity' :=
            match dict_get REMOTE_BUTTON_MAP (py_lower cmd) with
            | Some _ => Some (py_lower cmd)
            | None => activity
            end in
          send_keys rest (sent ++ [key_code])%list activity'
      end
  end.

(** [async_send_command(command)] starting from [_current_activity]. *)
Definition async_send_command (command : list string)
    (activity : option string) : list attr * option string * bool :=
  send_keys command [] activity.

(** ** [number.py]: the LD power number entity ([JvcNumber])

    Python [float]s are Rocq's primitive IEEE 754 binary64 floats
    ([PrimFloat]), with the same rounding as CPython's. *)

Definition LD_CURRENT_MIN : Z := 109.
Definition LD_CURRENT_MAX : Z := 219.

(** [float(n)] of a Python [int] [n] with [|n| < 2^63]; an [int] operand of
    a mixed [int]/[float] operation is converted the same way. *)
Definition py_float_of_int (z : Z) : PrimFloat.float :=
  if (z <? 0)%Z then PrimFloat.opp (PrimFloat.of_uint63 (Uint63.of_Z (- z)))
  else PrimFloat.of_uint63 (Uint63.of_Z z).

(** [min(a, b)]: [a] unless [b < a]; [max(a, b)]: [a] unless [b > a]. *)
Definition py_min (a b : PrimFloat.float) : PrimFloat.float :=
  if PrimFloat.ltb b a then b else a.

Definition py_max (a b : PrimFloat.float) : PrimFloat.float :=
  if PrimFloat.ltb a b then b else a.

(** [round(x)] of a [float]: the nearest [int], ties to even; [None] where
    it raises ([ValueError] on nan, [OverflowError] on an infinity). *)
Definition py_round (x : PrimFloat.float) : option Z :=
  match FloatOps.Prim2SF x with
  | SpecFloat.S754_zero _ => Some 0%Z
  | SpecFloat.S754_infinity _ | SpecFloat.S754_nan => None
  | SpecFloat.S754_finite s m e =>
      let n :=
        if (0 <=? e)%Z then Z.shiftl (Zpos m) e
        else
          let d := Z.pow 2 (- e) in
          let q := Z.div (Zpos m) d in
          let r := Z.modulo (Zpos m) d in
          if (2 * r <? d)%Z then q
          else if (d <? 2 * r)%Z then (q + 1)%Z
          else if Z.even q then q else (q + 1)%Z in
      Some (if s then (- n)%Z else n)
  end.

(** [format(n, "04X")] *)
Definition hex_digit_upper (d : Z) : ascii :=
  ascii_of_nat (Z.to_nat (if (d <? 10)%Z then 48 + d else 55 + d)).

Fixpoint hex_upper_aux (fuel : nat) (n : Z) (acc : string) : string :=
  match fuel with
  | O => acc
  | S fuel' =>
      let acc' := String (hex_digit_upper (n mod 16)) acc in
      if (n <? 16)%Z then acc' else hex_upper_aux fuel' (n / 16) acc'
  end.

(** The upper-case hex digits of [n >= 0] (one step per bit is enough). *)
Definition py_hex_upper (n : Z) : string :=
  hex_upper_aux (S (Z.to_nat (Z.log2 n))) n EmptyString.

Fixpoint zeros (k : nat) : string :=
  match k with
  | O => EmptyString
  | S k' => String "0" (zeros k')
  end.

Definition py_format_04X (n : Z) : string :=
  if (n <? 0)%Z then
    let h := py_hex_upper (- n) in
    String "-" (zeros (3 - String.length h) ++ h)
  else
    let h := py_hex_upper n in
    zeros (4 - String.length h) ++ h.

(** [JvcNumber.native_value] for the stored [int] [raw_value] (what
    [async_set_native_value] writes; the coordinator does not poll
    [PMCV]).  [round] cannot raise here: [protocol_value] is clamped to
    [109..219]. *)
Definition number_native_value (raw_value : option Z) : option Z :=
  match raw_value with
  | None => None
  | Some raw =>
      let protocol_value := py_float_of_int raw in
      let protocol_value :=
        py_max (py_float_of_int LD_CURRENT_MIN)
          (py_min (py_float_of_int LD_CURRENT_MAX) protocol_value) in
      let ha_value :=
        PrimFloat.add
          (PrimFloat.mul
             (PrimFloat.div
                (PrimFloat.sub protocol_value (py_float_of_int LD_CURRENT_MIN))
                (py_float_of_int (LD_CURRENT_MAX - LD_CURRENT_MIN)))
             (py_float_of_int 99))
          (py_float_of_int 1) in
      py_round ha_value
  end.

(** [JvcNumber.async_set_native_value(value)]: the [protocol_value] stored
    in [coordinator.data[PMCV]] and the [hex_value] sent with
    [device.op(PMCV, hex_value)]; [None] where [round] raises. *)
Definition number_set_native_value (value : PrimFloat.float)
  : option (Z * string) :=
  let ha_value := py_max (py_float_of_int 1) (py_min (py_float_of_int 100) value) in
  let protocol_value :=
    PrimFloat.add (py_float_of_int LD_CURRENT_MIN)
      (PrimFloat.mul
         (PrimFloat.div (PrimFloat.sub ha_value (py_float_of_int 1))
            (py_float_of_int 99))
         (py_float_of_int (LD_CURRENT_MAX - LD_CURRENT_MIN))) in
  match py_round protocol_value with
  | None => None
  | Some protocol_value => Some (protocol_value, py_format_04X protocol_value)
  end.

(** The round trip of one slider value [z], as a decidable check. *)
Definition number_round_trip_ok (z : Z) : bool :=
  match number_set_native_value (py_float_of_int z) with
  | Some (p, hex) =>
      (LD_CURRENT_MIN <=? p)%Z && (p <=? LD_CURRENT_MAX)%Z &&
      (String.length hex =? 4)%nat &&
      match py_int16 hex with Some q => (q =? p)%Z | None => false end &&
      match number_native_value (Some p) with
      | Some z' => (z' =? z)%Z
      | None => false
      end
  | None => false
  end.

(** ** Auxiliary definitions: properties of the table, example inputs *)

(** Literal words a match of the atoms must start with. *)
Fixpoint lead_words (ps : list atom) : list (list ascii) :=
  match ps with
  | ALit c :: ps' => map (cons c) (lead_words ps')
  | AAlt alts :: ps' =>
      flat_map (fun w => map (app (list_ascii_of_string w)) (lead_words ps')) alts
  | _ => [[]]
  end.

Definition pat_leads (p : string) : list (list ascii) :=
  match re_pattern p with Some ps => lead_words ps | None => [[]] end.

(** One word is a prefix of the other. *)
Definition comparable (w1 w2 : list ascii) : bool :=
  match strip_prefix w1 w2 with
  | Some _ => true
  | None => match strip_prefix w2 w1 with Some _ => true | None => false end
  end.

Definition rules_disjoint (p1 p2 : string) : bool :=
  forallb (fun w1 => forallb (fun w2 => negb (comparable w1 w2)) (pat_leads p2))
    (pat_leads p1).

Fixpoint pairwise_disjoint (items : list (string * fmt)) : bool :=
  match items with
  | [] => true
  | (p, _) :: rest =>
      forallb (fun kv => rules_disjoint p (fst kv)) rest && pairwise_disjoint rest
  end.

(** Number of capture groups. *)
Fixpoint caps (ps : list atom) : nat :=
  match ps with
  | [] => 0
  | ACap _ :: ps' | ACapPlus :: ps' => S (caps ps')
  | _ :: ps' => caps ps'
  end.

(** Every pattern of the table has at least one group. *)
Definition table_has_group (items : list (string * fmt)) : bool :=
  forallb (fun kv => match re_pattern (fst kv) with
                     | Some ps => Nat.ltb 0 (caps ps)
                     | None => true
                     end) items.

(** Base-16 value of a list of digits, most significant first. *)
Definition hex_step (acc : Z) (c : ascii) : Z :=
  (acc * 16 + match hex_val c with Some d => d | None => 0 end)%Z.

Definition hex_value (l : list ascii) : Z := fold_left hex_step l 0%Z.

Definition all_hex (l : list ascii) : bool :=
  forallb (fun c => match hex_val c with Some _ => true | None => false end) l.

(** No two dashes in a row. *)
Fixpoint no_double_dash (l : list ascii) : bool :=
  match l with
  | a :: ((b :: _) as l') =>
      negb (Ascii.eqb a "-" && Ascii.eqb b "-") && no_double_dash l'
  | _ => true
  end.

Definition starts_with_dash (l : list ascii) : bool :=
  match l with c :: _ => Ascii.eqb c "-" | [] => false end.







(** ** General facts about the decoding loop *)

Lemma substring_0_length : forall s, substring 0 (String.length s) s = s.
Proof. induction s as [|a s IH]; simpl; [reflexivity | now rewrite IH]. Qed.

Lemma substring_after_prefix : forall c r,
  substring (String.length c) (String.length (c ++ r) - String.length c) (c ++ r) = r.
Proof.
  induction c as [|a c IH]; intro r; simpl.
  - rewrite PeanoNat.Nat.sub_0_r. apply substring_0_length.
  - apply IH.
Qed.

Lemma response_is_loop : forall cmd r,
  is_ref cmd = true -> _response cmd = Some r ->
  response cmd = format_loop formatters (code cmd ++ r) r.
Proof.
  intros cmd r Href Hr. unfold response. rewrite Href, Hr. simpl.
  now rewrite substring_after_prefix.
Qed.

Lemma ref_with_is_loop : forall c r,
  response (ref_with c r) = format_loop formatters (c ++ r) r.
Proof. intros c r. now apply response_is_loop. Qed.

Lemma format_loop_skip : forall pre rest s v,
  (forall p f, In (p, f) pre -> re_search p s = None) ->
  format_loop (pre ++ rest) s v = format_loop rest s v.
Proof.
  induction pre as [|[p f] pre IH]; intros rest s v Hpre; simpl; [reflexivity|].
  rewrite (Hpre p f (or_introl eq_refl)).
  apply IH. intros p' f' Hin. apply (Hpre p' f'). now right.
Qed.

Lemma format_loop_none : forall items s v,
  (forall p f, In (p, f) items -> re_search p s = None) ->
  format_loop items s v = Ret (Some v).
Proof.
  intros items s v H. rewrite <- (app_nil_r items).
  rewrite format_loop_skip by exact H. reflexivity.
Qed.

(** The hypothesis about the earlier patterns, checked by evaluation. *)
Definition none_match (items : list (string * fmt)) (s : string) : bool :=
  forallb (fun kv => match re_search (fst kv) s with None => true | Some _ => false end)
    items.

Lemma none_match_sound : forall items s,
  none_match items s = true -> forall p f, In (p, f) items -> re_search p s = None.
Proof.
  intros items s H p f Hin. unfold none_match in H.
  rewrite forallb_forall in H. specialize (H (p, f) Hin). simpl in H.
  destruct (re_search p s); [discriminate | reflexivity].
Qed.

Lemma format_loop_result : forall items s v w,
  format_loop items s v = Ret (Some w) ->
  w = v \/ exists p f m, In (p, f) items /\ re_search p s = Some m
                         /\ apply_fmt f m v = Ret (Some w).
Proof.
  induction items as [|[p f] items IH]; intros s v w H; simpl in H.
  - left. congruence.
  - destruct (re_search p s) as [m|] eqn:E.
    + right. exists p, f, m. simpl. auto.
    + destruct (IH s v w H) as [Hw | (p' & f' & m' & Hin & Hm & Ha)]; [now left|].
      right. exists p', f', m'. simpl. auto.
Qed.

Lemma apply_list_result : forall l m v w,
  apply_fmt (FList l) m v = Ret (Some w) -> w = v \/ In (Some w) l.
Proof.
  intros l m v w H. unfold apply_fmt in H.
  destruct (m_get m 1) as [g|]; [|discriminate].
  destruct (py_int16 g) as [i|]; [|left; congruence].
  destruct (py_list_get l i) as [e|] eqn:E; [|discriminate].
  right. injection H as ->. unfold py_list_get in E.
  destruct (_ && _); [eapply nth_error_In; exact E|].
  destruct (_ && _); [eapply nth_error_In; exact E | discriminate].
Qed.

(** Discharges the concrete side conditions of the witnesses. *)
Ltac eval_side :=
  match goal with
  | |- forall p f, In (p, f) _ -> re_search p _ = None =>
      apply none_match_sound; vm_compute; reflexivity
  | |- (_ <= _ < _)%Z => simpl; lia
  | |- _ => vm_compute; reflexivity
  end.

(** Colorimetry labels that the sensor layer ([sensor.py], [JVC_SENSORS])
    lists among the IFCM options. *)
Definition ifcm_sensor_labels : list string :=
  ["no_data"; "bt2020_cl"; "bt2020_ncl"; "dci_p3_d65"; "dci_p3_theater"].

(** ** Claims *)

(** C1: with code "PW" and response "7" the power list (5 entries) is
    indexed out of range; reading the decoded value raises [IndexError],
    which the [except ValueError] / [except KeyError] clauses do not catch,
    instead of degrading to the raw text "7". *)
Theorem C1_PW_index_out_of_range_raises :
  response (ref_with "PW" "7") = Raise IndexError.
Proof. vm_compute. reflexivity. Qed.

(** C2: the decoded value of a reference command with a response is the
    decoder of the first pattern (in the order of the table) whose anchored
    match succeeds on code + response, applied to that match; whatever comes
    after it in the table plays no part. *)
Theorem C2_first_matching_rule_applies : forall c r pre pat f rest m,
  formatters = (pre ++ (pat, f) :: rest)%list ->
  (forall p g, In (p, g) pre -> re_search p (c ++ r) = None) ->
  re_search pat (c ++ r) = Some m ->
  response (ref_with c r) = apply_fmt f m r.
Proof.
  intros c r pre pat f rest m Htbl Hpre Hm.
  rewrite ref_with_is_loop, Htbl, format_loop_skip by exact Hpre.
  simpl. now rewrite Hm.
Qed.

Lemma C2_first_matching_rule_applies_witness :
  response (ref_with "PMPM" "0B") = Ret (Some "frame_adapt_hdr").
Proof.
  rewrite (C2_first_matching_rule_applies "PMPM" "0B" (firstn 7 formatters)
             "PMPM(..)" (snd (nth 7 formatters ("", FList [])))
             (skipn 8 formatters)
             {| m_whole := "PMPM0B"; m_groups := ["0B"] |}).
  all: eval_side.
Defined.

(** C3: when the first matching rule is an enumerated list and its group
    parses in base 16 to an index inside the list, the decoded value is the
    list entry at that index: the label, or Python [None] for a reserved
    slot (no exception, no raw text). *)
Theorem C3_list_rule_in_range : forall c r pre pat l rest m g i,
  formatters = (pre ++ (pat, FList l) :: rest)%list ->
  (forall p f, In (p, f) pre -> re_search p (c ++ r) = None) ->
  re_search pat (c ++ r) = Some m ->
  m_get m 1 = Some g ->
  py_int16 g = Some i ->
  (0 <= i < Z.of_nat (length l))%Z ->
  response (ref_with c r) = Ret (nth (Z.to_nat i) l None).
Proof.
  intros c r pre pat l rest m g i Htbl Hpre Hm Hg Hi Hrange.
  rewrite ref_with_is_loop, Htbl, format_loop_skip by exact Hpre.
  cbn [app format_loop]. rewrite Hm. unfold apply_fmt. rewrite Hg, Hi.
  unfold py_list_get.
  replace ((0 <=? i)%Z && (i <? Z.of_nat (length l))%Z) with true
    by (symmetry; apply andb_true_intro; split; [apply Z.leb_le | apply Z.ltb_lt]; lia).
  rewrite nth_error_nth' with (d := None); [reflexivity|].
  lia.
Qed.

Lemma C3_list_rule_in_range_witness :
  response (ref_with "PMCM" "1") = Ret None.
Proof.
  rewrite (C3_list_rule_in_range "PMCM" "1" (firstn 16 formatters) "PMCM(.)"
             [Some "off"; None; None; Some "low"; Some "high"; Some "inverse_telecine"]
             (skipn 17 formatters)
             {| m_whole := "PMCM1"; m_groups := ["1"] |} "1" 1%Z).
  all: eval_side.
Defined.

(** C4: when the first matching rule is a lookup map and its group is not a
    key of the map, reading the decoded value does not raise: it is the raw
    response text. *)
Theorem C4_map_rule_unknown_key : forall c r pre pat d rest m g,
  formatters = (pre ++ (pat, FDict d) :: rest)%list ->
  (forall p f, In (p, f) pre -> re_search p (c ++ r) = None) ->
  re_search pat (c ++ r) = Some m ->
  m_get m 1 = Some g ->
  dict_get d g = None ->
  response (ref_with c r) = Ret (Some r).
Proof.
  intros c r pre pat d rest m g Htbl Hpre Hm Hg Hd.
  rewrite ref_with_is_loop, Htbl, format_loop_skip by exact Hpre.
  cbn [app format_loop]. rewrite Hm. unfold apply_fmt. now rewrite Hg, Hd.
Qed.

Lemma C4_map_rule_unknown_key_witness :
  response (ref_with "PMPM" "99") = Ret (Some "99").
Proof.
  apply (C4_map_rule_unknown_key "PMPM" "99" (firstn 7 formatters) "PMPM(..)"
           (dict_lit [("01", "cinema"); ("03", "natural"); ("0B", "frame_adapt_hdr");
                      ("0C", "sdr1"); ("0D", "sdr2"); ("0E", "hdr1"); ("0F", "hdr2");
                      ("14", "hlg"); ("15", "hdr10+"); ("17", "filmmaker");
                      ("18", "frame_adapt_hdr2"); ("1B", "vivid")])
           (skipn 8 formatters)
           {| m_whole := "PMPM99"; m_groups := ["99"] |} "99").
  all: eval_side.
Defined.

(** C5: the dict literal writes the key "IFCM(.)" twice; the table has a
    single rule for it, holding the later 11-entry list.  So a decoded IFCM
    value is one of the labels the sensor layer lists only ("no_data",
    "bt2020_cl", "bt2020_ncl", "dci_p3_d65", "dci_p3_theater") when it is
    the raw response passed through verbatim, never the result of decoding. *)
Theorem C5_ifcm_single_rule :
  filter (fun kv => String.eqb (fst kv) "IFCM(.)") formatters =
    [("IFCM(.)",
      FList [Some "nodata"; Some "bt601"; Some "bt709"; Some "xvycc601";
             Some "xvycc709"; Some "sycc601"; Some "adobe_ycc601"; Some "adobe_rgb";
             Some "bt2020(constant_luminance)"; Some "bt2020(non-constant_luminance)";
             Some "srgb"])]
  /\ forall r v,
       response (ref_with "IFCM" r) = Ret (Some v) ->
       In v ifcm_sensor_labels -> v = r.
Proof.
  match goal with |- ?A /\ _ => assert (Hfl : A) by (vm_compute; reflexivity) end.
  split; [exact Hfl|].
  intros r v H Hv. rewrite ref_with_is_loop in H.
  destruct (format_loop_result _ _ _ _ H) as [Hw | (p & f & m & Hin & Hm & Ha)];
    [exact Hw|].
  destruct (String.eqb (fst (p, f)) "IFCM(.)") eqn:Ep.
  - assert (Hf : In (p, f) (filter (fun kv => String.eqb (fst kv) "IFCM(.)") formatters))
      by (apply filter_In; auto).
    rewrite Hfl in Hf. destruct Hf as [Hf | []]. injection Hf as <- <-.
    destruct (apply_list_result _ _ _ _ Ha) as [Hr | Hl]; [exact Hr|].
    exfalso. simpl in Hv, Hl.
    repeat destruct Hv as [Hv | Hv]; subst; try contradiction;
      repeat destruct Hl as [Hl | Hl]; try discriminate Hl; contradiction.
  - assert (Hn : none_match
                   (filter (fun kv => negb (String.eqb (fst kv) "IFCM(.)")) formatters)
                   ("IFCM" ++ r) = true) by (vm_compute; reflexivity).
    assert (Hin' : In (p, f) (filter (fun kv => negb (String.eqb (fst kv) "IFCM(.)"))
                                formatters))
      by (apply filter_In; split; [exact Hin | now rewrite Ep]).
    rewrite (none_match_sound _ _ Hn p f Hin') in Hm. discriminate.
Qed.

Lemma C5_ifcm_single_rule_witness :
  response (ref_with "IFCM" "no_data") = Ret (Some "no_data")
  /\ "no_data" = "no_data".
Proof.
  assert (H : response (ref_with "IFCM" "no_data") = Ret (Some "no_data"))
    by (vm_compute; reflexivity).
  split; [exact H|].
  apply (proj2 C5_ifcm_single_rule "no_data" "no_data" H).
  simpl. auto.
Defined.

(** C6: when no pattern of the table matches code + response, the decoded
    value is the attached response, verbatim. *)
Theorem C6_no_match_gives_raw : forall cmd r,
  is_ref cmd = true ->
  _response cmd = Some r ->
  (forall p f, In (p, f) formatters -> re_search p (code cmd ++ r) = None) ->
  response cmd = Ret (Some r).
Proof.
  intros cmd r Href Hr Hnone.
  rewrite (response_is_loop cmd r Href Hr). now apply format_loop_none.
Qed.

Lemma C6_no_match_gives_raw_witness :
  response (ref_with "XX" "a b") = Ret (Some "a b").
Proof. apply C6_no_match_gives_raw; [reflexivity | reflexivity | eval_side]. Defined.

(** C7: the decoded value is [None] for an operation command and for a
    command with no response attached, whatever its code. *)
Theorem C7_no_value_without_ref_response : forall cmd,
  is_ref cmd = false \/ _response cmd = None -> response cmd = Ret None.
Proof.
  intros cmd [H | H]; unfold response; rewrite H; simpl; [reflexivity|].
  destruct (is_ref cmd); reflexivity.
Qed.

Lemma C7_no_value_without_ref_response_witness :
  response (set_response (new_command "PW" false) "1") = Ret None.
Proof. apply C7_no_value_without_ref_response. left. reflexivity. Defined.

(** C8: code "IFLT" with response "0190" decodes to "400". *)
Theorem C8_IFLT_hours_decimal :
  response (ref_with "IFLT" "0190") = Ret (Some "400").
Proof. vm_compute. reflexivity. Qed.

(** C9: code "LSIP" with response "C0A80101" decodes to "192.168.1.1". *)
Theorem C9_LSIP_dotted_decimal :
  response (ref_with "LSIP" "C0A80101") = Ret (Some "192.168.1.1").
Proof. vm_compute. reflexivity. Qed.

(** C10: a greeting other than "PJ_OK" (or none) ends the handshake with
    [JvcProjectorConnectError]; the reject token "PJNAK" after a good
    greeting ends it with [JvcProjectorAuthError]; and neither class is a
    subclass of the other, so an [except] clause for one does not catch
    the other. *)
Theorem C10_handshake_errors_distinct :
  (forall g a, g <> Some PJOK -> handshake g a = Failed CJvcProjectorConnectError)
  /\ handshake (Some PJOK) (Some PJNAK) = Failed CJvcProjectorAuthError
  /\ issubclass CJvcProjectorAuthError CJvcProjectorConnectError = false
  /\ issubclass CJvcProjectorConnectError CJvcProjectorAuthError = false.
Proof.
  split; [|repeat split; reflexivity].
  intros [g|] a Hg; simpl; [|reflexivity].
  destruct (String.eqb g PJOK) eqn:E; [|reflexivity].
  apply String.eqb_eq in E. subst. contradiction.
Qed.

Lemma C10_handshake_errors_distinct_witness :
  handshake (Some PJNG) (Some PJACK) = Failed CJvcProjectorConnectError.
Proof.
  apply (proj1 C10_handshake_errors_distinct). unfold PJNG, PJOK. congruence.
Defined.

(** ** Further properties of the decoder *)

Lemma strip_prefix_app : forall w l l', strip_prefix w l = Some l' -> l = (w ++ l')%list.
Proof.
  induction w as [|c w IH]; intros l l' H; simpl in H.
  - now injection H as ->.
  - destruct l as [|c' l]; [discriminate|].
    destruct (Ascii.eqb c c') eqn:E; [|discriminate].
    apply Ascii.eqb_eq in E. subst. simpl. f_equal. now apply IH.
Qed.

Lemma strip_prefix_of_app : forall w l, strip_prefix w (w ++ l)%list = Some l.
Proof.
  induction w as [|c w IH]; intro l; simpl; [reflexivity|].
  now rewrite Ascii.eqb_refl.
Qed.

Lemma first_some_some : forall {A B} (f : A -> option B) l b,
  first_some f l = Some b -> exists a, In a l /\ f a = Some b.
Proof.
  intros A B f. induction l as [|a l IH]; intros b H; simpl in H; [discriminate|].
  destruct (f a) eqn:E.
  - exists a. split; [now left | congruence].
  - destruct (IH b H) as (a' & Hin & Ha'). exists a'. split; [now right | exact Ha'].
Qed.

Lemma greedy_some : forall {B} (f : nat -> option B) k b,
  greedy f k = Some b -> exists i, f i = Some b.
Proof.
  intros B f. induction k as [|k IH]; intros b H; simpl in H; [discriminate|].
  destruct (f (S k)) eqn:E; [exists (S k); congruence | now apply IH].
Qed.

Lemma mtch_lead : forall ps l r,
  mtch ps l = Some r -> exists w l', In w (lead_words ps) /\ l = (w ++ l')%list.
Proof.
  induction ps as [|a ps IH]; intros l r H.
  - exists [], l. simpl. auto.
  - destruct a as [c | alts | n |].
    + simpl in H. destruct l as [|c' l]; [discriminate|].
      destruct (Ascii.eqb c c') eqn:E; [|discriminate].
      apply Ascii.eqb_eq in E. subst.
      destruct (IH l r H) as (w & l' & Hw & ->).
      exists (c' :: w), l'. split; [apply in_map; exact Hw | reflexivity].
    + simpl in H. apply first_some_some in H as (a & Hin & Ha).
      destruct (strip_prefix (list_ascii_of_string a) l) as [l1|] eqn:Es;
        [|discriminate].
      apply strip_prefix_app in Es. subst l.
      destruct (IH l1 r Ha) as (w & l' & Hw & ->).
      exists (list_ascii_of_string a ++ w)%list, l'. split.
      * simpl. apply in_flat_map. exists a. split; [exact Hin|]. now apply in_map.
      * now rewrite app_assoc.
    + exists [], l. simpl. auto.
    + exists [], l. simpl. auto.
Qed.

Lemma re_search_lead : forall p s m,
  re_search p s = Some m ->
  exists w l', In w (pat_leads p) /\ list_ascii_of_string s = (w ++ l')%list.
Proof.
  intros p s m H. unfold re_search in H. unfold pat_leads.
  destruct (re_pattern p) as [ps|]; [|discriminate].
  destruct (mtch ps (list_ascii_of_string s)) as [r|] eqn:E; [|discriminate].
  eapply mtch_lead. exact E.
Qed.

Lemma prefixes_comparable : forall w1 w2 l1 l2,
  (w1 ++ l1)%list = (w2 ++ l2)%list -> comparable w1 w2 = true.
Proof.
  unfold comparable.
  induction w1 as [|c w1 IH]; intros w2 l1 l2 H; simpl; [reflexivity|].
  destruct w2 as [|c' w2]; simpl; [reflexivity|].
  simpl in H. injection H as -> H. rewrite Ascii.eqb_refl.
  exact (IH w2 l1 l2 H).
Qed.

Lemma pairwise_nth : forall items i j p1 f1 p2 f2,
  pairwise_disjoint items = true -> (i < j)%nat ->
  nth_error items i = Some (p1, f1) -> nth_error items j = Some (p2, f2) ->
  rules_disjoint p1 p2 = true.
Proof.
  induction items as [|[p f] items IH]; intros i j p1 f1 p2 f2 H Hij Hi Hj;
    [destruct i; discriminate|].
  simpl in H. apply andb_prop in H as [Hhead Hrest].
  destruct j as [|j]; [lia|]. simpl in Hj.
  destruct i as [|i].
  - simpl in Hi. injection Hi as <- <-.
    rewrite forallb_forall in Hhead. apply (Hhead (p2, f2)).
    eapply nth_error_In. exact Hj.
  - simpl in Hi. apply (IH i j p1 f1 p2 f2 Hrest ltac:(lia) Hi Hj).
Qed.

Lemma disjoint_not_both : forall p1 p2 s m1 m2,
  rules_disjoint p1 p2 = true -> re_search p1 s = Some m1 -> re_search p2 s = Some m2 ->
  False.
Proof.
  intros p1 p2 s m1 m2 H H1 H2.
  destruct (re_search_lead _ _ _ H1) as (w1 & l1 & Hw1 & E1).
  destruct (re_search_lead _ _ _ H2) as (w2 & l2 & Hw2 & E2).
  unfold rules_disjoint in H. rewrite forallb_forall in H.
  specialize (H w1 Hw1). rewrite forallb_forall in H. specialize (H w2 Hw2).
  rewrite (prefixes_comparable w1 w2 l1 l2) in H by congruence. discriminate.
Qed.

Lemma mtch_groups : forall ps l gs k, mtch ps l = Some (gs, k) -> length gs = caps ps.
Proof.
  induction ps as [|a ps IH]; intros l gs k H.
  - simpl in H. destruct (at_end l); [|discriminate]. now injection H as <- _.
  - destruct a as [c | alts | n |]; simpl in H |- *.
    + destruct l as [|c' l]; [discriminate|].
      destruct (Ascii.eqb c c'); [exact (IH _ _ _ H) | discriminate].
    + apply first_some_some in H as (w & _ & Hw).
      destruct (strip_prefix _ l) as [l'|]; [exact (IH _ _ _ Hw) | discriminate].
    + destruct (take_dots n l) as [[g l']|]; [|discriminate].
      destruct (mtch ps l') as [[gs' k']|] eqn:E; [|discriminate].
      simpl in H. injection H as <- _. simpl. f_equal. exact (IH _ _ _ E).
    + apply greedy_some in H as (i & Hi).
      destruct (mtch ps (skipn i l)) as [[gs' k']|] eqn:E; [|discriminate].
      simpl in Hi. injection Hi as <- _. simpl. f_equal. exact (IH _ _ _ E).
Qed.

Lemma table_group1 : forall p f s m,
  In (p, f) formatters -> re_search p s = Some m -> exists g, m_get m 1 = Some g.
Proof.
  intros p f s m Hin Hm.
  assert (Ht : table_has_group formatters = true) by (vm_compute; reflexivity).
  unfold table_has_group in Ht. rewrite forallb_forall in Ht.
  specialize (Ht (p, f) Hin). simpl in Ht.
  unfold re_search in Hm. destruct (re_pattern p) as [ps|]; [|discriminate].
  destruct (mtch ps (list_ascii_of_string s)) as [[gs k]|] eqn:E; [|discriminate].
  injection Hm as <-. apply mtch_groups in E. simpl.
  apply PeanoNat.Nat.ltb_lt in Ht.
  destruct gs as [|g gs]; [simpl in E; lia|]. now exists g.
Qed.

(** The loop either finds no pattern, or stops at the first matching one. *)
Lemma format_loop_first : forall items s v,
  (forall p f, In (p, f) items -> re_search p s = None) \/
  exists pre p f rest m,
    items = (pre ++ (p, f) :: rest)%list /\
    (forall p' f', In (p', f') pre -> re_search p' s = None) /\
    re_search p s = Some m /\ format_loop items s v = apply_fmt f m v.
Proof.
  induction items as [|[p f] items IH]; intros s v.
  - left. intros p f [].
  - destruct (re_search p s) as [m|] eqn:E.
    + right. exists [], p, f, items, m. simpl. rewrite E.
      repeat split; auto. intros p' f' [].
    + destruct (IH s v) as [Hn | (pre & p' & f' & rest & m & -> & Hpre & Hm & Hl)].
      * left. intros p' f' [Heq | Hin]; [injection Heq as -> ->; exact E|].
        exact (Hn p' f' Hin).
      * right. exists ((p, f) :: pre), p', f', rest, m.
        simpl. rewrite E. repeat split; auto.
        intros p'' f'' [Heq | Hin]; [injection Heq as -> ->; exact E|].
        exact (Hpre p'' f'' Hin).
Qed.

Lemma py_list_get_none : forall {A} (l : list A) i,
  py_list_get l i = None ->
  (i < - Z.of_nat (length l) \/ Z.of_nat (length l) <= i)%Z.
Proof.
  intros A l i H. unfold py_list_get in H.
  destruct (Z.leb_spec 0 i), (Z.ltb_spec i (Z.of_nat (length l))); simpl in H.
  - apply nth_error_None in H. lia.
  - lia.
  - destruct (Z.leb_spec (- Z.of_nat (length l)) i), (Z.ltb_spec i 0); simpl in H;
      [apply nth_error_None in H; lia | lia | lia | lia].
  - destruct (Z.leb_spec (- Z.of_nat (length l)) i), (Z.ltb_spec i 0); simpl in H;
      [apply nth_error_None in H; lia | lia | lia | lia].
Qed.

(** The hypothesis of the disjointness theorem, checked by evaluation. *)
Lemma formatters_pairwise_disjoint : pairwise_disjoint formatters = true.
Proof. vm_compute. reflexivity. Qed.

(** X1 (command.py, [formatters] and the loop of [response]): the patterns
    of the table exclude each other: no two distinct entries match the same
    string, so the [break] after the first match never hides a second
    matching rule and the order of the entries does not matter. *)
Theorem X1_table_patterns_disjoint : forall s i j p1 f1 p2 f2,
  i <> j -> nth_error formatters i = Some (p1, f1) ->
  nth_error formatters j = Some (p2, f2) ->
  re_search p1 s = None \/ re_search p2 s = None.
Proof.
  intros s i j p1 f1 p2 f2 Hij Hi Hj.
  destruct (re_search p1 s) as [m1|] eqn:E1; [|now left].
  destruct (re_search p2 s) as [m2|] eqn:E2; [|now right].
  exfalso. destruct (PeanoNat.Nat.lt_gt_cases i j) as [[Hlt | Hgt] _].
  - exact Hij.
  - eapply disjoint_not_both; [| exact E1 | exact E2].
    exact (pairwise_nth _ _ _ _ _ _ _ formatters_pairwise_disjoint Hlt Hi Hj).
  - eapply disjoint_not_both; [| exact E2 | exact E1].
    exact (pairwise_nth _ _ _ _ _ _ _ formatters_pairwise_disjoint Hgt Hj Hi).
Qed.

Lemma X1_table_patterns_disjoint_witness :
  re_search "PW(.)" "PW1" = None \/ re_search "(?:IP|IFIN)(.)" "PW1" = None.
Proof.
  apply (X1_table_patterns_disjoint "PW1" 0 1
           "PW(.)" (snd (nth 0 formatters (EmptyString, FCall L_MD)))
           "(?:IP|IFIN)(.)" (snd (nth 1 formatters (EmptyString, FCall L_MD))));
    [discriminate | vm_compute; reflexivity | vm_compute; reflexivity].
Defined.

(** X2 (command.py, [response]): the only exception that escapes the
    property is the [IndexError] of a list rule: the first matching pattern
    has a list value and its group, read as hexadecimal, is out of the
    list's range. *)
Theorem X2_response_raises_only_list_index : forall cmd e,
  response cmd = Raise e ->
  e = IndexError /\
  exists r pre p l rest m g i,
    is_ref cmd = true /\ _response cmd = Some r /\
    formatters = (pre ++ (p, FList l) :: rest)%list /\
    (forall p' f', In (p', f') pre -> re_search p' (code cmd ++ r) = None) /\
    re_search p (code cmd ++ r) = Some m /\ m_get m 1 = Some g /\
    py_int16 g = Some i /\
    (i < - Z.of_nat (length l) \/ Z.of_nat (length l) <= i)%Z.
Proof.
  intros cmd e H.
  destruct (is_ref cmd) eqn:Href; [|unfold response in H; rewrite Href in H; discriminate].
  destruct (_response cmd) as [r|] eqn:Hr;
    [|unfold response in H; rewrite Href, Hr in H; discriminate].
  rewrite (response_is_loop cmd r Href Hr) in H.
  destruct (format_loop_first formatters (code cmd ++ r) r)
    as [Hn | (pre & p & f & rest & m & Ht & Hpre & Hm & Hl)].
  - rewrite format_loop_none in H by exact Hn. discriminate.
  - rewrite Hl in H.
    assert (Hin : In (p, f) formatters) by (rewrite Ht; apply in_or_app; right; now left).
    destruct (table_group1 _ _ _ _ Hin Hm) as [g Hg].
    destruct f as [l | d | lam]; unfold apply_fmt in H; rewrite ?Hg in H.
    + destruct (py_int16 g) as [i|] eqn:Hi; [|discriminate].
      destruct (py_list_get l i) as [x|] eqn:Hx; [discriminate|].
      injection H as <-. split; [reflexivity|].
      exists r, pre, p, l, rest, m, g, i.
      repeat split; auto. now apply py_list_get_none.
    + destruct (dict_get d g); discriminate.
    + destruct (call lam m); discriminate.
Qed.

Lemma X2_response_raises_only_list_index_witness :
  IndexError = IndexError /\
  exists r pre p l rest m g i,
    is_ref (ref_with "PW" "7") = true /\ _response (ref_with "PW" "7") = Some r /\
    formatters = (pre ++ (p, FList l) :: rest)%list /\
    (forall p' f', In (p', f') pre -> re_search p' (code (ref_with "PW" "7") ++ r) = None) /\
    re_search p (code (ref_with "PW" "7") ++ r) = Some m /\ m_get m 1 = Some g /\
    py_int16 g = Some i /\
    (i < - Z.of_nat (length l) \/ Z.of_nat (length l) <= i)%Z.
Proof.
  apply (X2_response_raises_only_list_index (ref_with "PW" "7") IndexError).
  vm_compute. reflexivity.
Defined.

(** X3 (command.py, [response]): a reference command with a response
    reads as [None] only through a [None] slot of a list rule: the first
    matching pattern has a list value whose entry at the group's index is
    [None]. *)
Theorem X3_response_none_only_reserved_slot : forall c r,
  response (ref_with c r) = Ret None ->
  exists pre p l rest m g i,
    formatters = (pre ++ (p, FList l) :: rest)%list /\
    (forall p' f', In (p', f') pre -> re_search p' (c ++ r) = None) /\
    re_search p (c ++ r) = Some m /\ m_get m 1 = Some g /\
    py_int16 g = Some i /\ py_list_get l i = Some None.
Proof.
  intros c r H. rewrite ref_with_is_loop in H.
  destruct (format_loop_first formatters (c ++ r) r)
    as [Hn | (pre & p & f & rest & m & Ht & Hpre & Hm & Hl)].
  - rewrite format_loop_none in H by exact Hn. discriminate.
  - rewrite Hl in H.
    assert (Hin : In (p, f) formatters) by (rewrite Ht; apply in_or_app; right; now left).
    destruct (table_group1 _ _ _ _ Hin Hm) as [g Hg].
    destruct f as [l | d | lam]; unfold apply_fmt in H; rewrite ?Hg in H.
    + destruct (py_int16 g) as [i|] eqn:Hi; [|discriminate].
      destruct (py_list_get l i) as [x|] eqn:Hx; [|discriminate].
      injection H as ->.
      exists pre, p, l, rest, m, g, i. repeat split; auto.
    + destruct (dict_get d g); discriminate.
    + destruct (call lam m); discriminate.
Qed.

Lemma X3_response_none_only_reserved_slot_witness :
  exists pre p l rest m g i,
    formatters = (pre ++ (p, FList l) :: rest)%list /\
    (forall p' f', In (p', f') pre -> re_search p' ("PMCM" ++ "1") = None) /\
    re_search p ("PMCM" ++ "1") = Some m /\ m_get m 1 = Some g /\
    py_int16 g = Some i /\ py_list_get l i = Some None.
Proof.
  apply (X3_response_none_only_reserved_slot "PMCM" "1").
  vm_compute. reflexivity.
Defined.

Lemma all_hex_cons : forall c l,
  all_hex (c :: l) = true -> (exists d, hex_val c = Some d) /\ all_hex l = true.
Proof.
  intros c l H. unfold all_hex in H. cbn [forallb] in H.
  apply andb_prop in H as [Hc Hl]. split; [|exact Hl].
  destruct (hex_val c) as [d|]; [now exists d | discriminate].
Qed.

Lemma digits_tail_hex : forall l acc,
  all_hex l = true -> digits_tail acc l = (fold_left hex_step l acc, []).
Proof.
  induction l as [|c l IH]; intros acc H; [reflexivity|].
  apply all_hex_cons in H as [[d Hd] Hl].
  cbn [digits_tail fold_left]. rewrite Hd. unfold hex_step at 2. rewrite Hd.
  now apply IH.
Qed.

(** [int(g, 16)] of a nonempty string of hexadecimal digits. *)
Lemma py_int16_hex : forall l,
  l <> [] -> all_hex l = true -> py_int16 (string_of_list_ascii l) = Some (hex_value l).
Proof.
  intros l Hne H. destruct l as [|a l]; [congruence|].
  unfold all_hex in H. cbn [forallb] in H. apply andb_prop in H as [Ha Hl].
  fold (all_hex l) in Hl.
  unfold py_int16, hex_value. rewrite list_ascii_of_string_of_list_ascii.
  destruct a as [[] [] [] [] [] [] [] []]; vm_compute in Ha; try discriminate Ha.
  all: try (simpl; rewrite (digits_tail_hex l _ Hl); reflexivity).
  destruct l as [|b l]; [reflexivity|].
  unfold all_hex in Hl. cbn [forallb] in Hl. apply andb_prop in Hl as [Hb Hl].
  fold (all_hex l) in Hl.
  destruct b as [[] [] [] [] [] [] [] []]; vm_compute in Hb; try discriminate Hb.
  all: simpl; rewrite (digits_tail_hex l _ Hl); reflexivity.
Qed.

Lemma list_ascii_of_string_append : forall s1 s2,
  list_ascii_of_string (s1 ++ s2) = (list_ascii_of_string s1 ++ list_ascii_of_string s2)%list.
Proof. induction s1 as [|c s1 IH]; intro s2; simpl; [reflexivity | now rewrite IH]. Qed.

Lemma hex_dot : forall c d, hex_val c = Some d -> dot c = true.
Proof.
  intros c d H. unfold dot.
  destruct (Ascii.eqb_spec c "010"%char) as [->|]; [vm_compute in H; discriminate|].
  reflexivity.
Qed.

Lemma all_hex_dots : forall l, all_hex l = true -> forallb dot l = true.
Proof.
  induction l as [|c l IH]; intro H; [reflexivity|].
  apply all_hex_cons in H as [[d Hd] Hl]. simpl.
  rewrite (hex_dot c d Hd). now apply IH.
Qed.

Lemma take_dots_app : forall g rest,
  forallb dot g = true -> take_dots (length g) (g ++ rest)%list = Some (g, rest).
Proof.
  induction g as [|c g IH]; intros rest H; [reflexivity|].
  simpl in H. apply andb_prop in H as [Hc Hg].
  simpl. rewrite Hc, (IH rest Hg). reflexivity.
Qed.

(** Literal characters followed by fixed-width groups match exactly the
    words made of those characters followed by the groups' texts. *)
Lemma mtch_lits_caps : forall w gs,
  forallb (forallb dot) gs = true ->
  mtch (map ALit w ++ map (fun g => ACap (length g)) gs)%list (w ++ concat gs)%list
  = Some (map string_of_list_ascii gs, 0%nat).
Proof.
  induction w as [|c w IH]; intros gs H.
  - simpl. induction gs as [|g gs IHg]; [reflexivity|].
    simpl in H. apply andb_prop in H as [Hg Hgs]. simpl.
    rewrite (take_dots_app g _ Hg), (IHg Hgs). reflexivity.
  - simpl. rewrite Ascii.eqb_refl. now apply IH.
Qed.

Lemma re_search_lits_caps : forall p w gs s,
  re_pattern p = Some (map ALit w ++ map (fun g => ACap (length g)) gs)%list ->
  list_ascii_of_string s = (w ++ concat gs)%list ->
  forallb (forallb dot) gs = true ->
  re_search p s = Some {| m_whole := s; m_groups := map string_of_list_ascii gs |}.
Proof.
  intros p w gs s Hp Hs Hg. unfold re_search. rewrite Hp, Hs, mtch_lits_caps by exact Hg.
  rewrite PeanoNat.Nat.sub_0_r, substring_0_length. reflexivity.
Qed.

Lemma length_list_ascii : forall s, length (list_ascii_of_string s) = String.length s.
Proof. induction s as [|c s IH]; simpl; [reflexivity | now rewrite IH]. Qed.

Lemma hex_nonempty : forall s, String.length s <> 0%nat -> list_ascii_of_string s <> [].
Proof. intros [|c s] H; [contradiction | discriminate]. Qed.

(** X4 (command.py, [formatters["IFLT(....)"]] through [response]): for
    every response of four hexadecimal digits, [IFLT] decodes to the
    decimal text of the base-16 value of the digits. *)
Theorem X4_IFLT_any_four_hex_digits : forall s,
  String.length s = 4%nat -> all_hex (list_ascii_of_string s) = true ->
  response (ref_with "IFLT" s)
  = Ret (Some (py_str_int (hex_value (list_ascii_of_string s)))).
Proof.
  intros s Hlen Hhex. rewrite ref_with_is_loop.
  replace formatters with (firstn 4 formatters ++ ("IFLT(....)", FCall L_IFLT)
                             :: skipn 5 formatters)%list by (vm_compute; reflexivity).
  rewrite format_loop_skip by (apply none_match_sound; vm_compute; reflexivity).
  cbn [format_loop].
  rewrite (re_search_lits_caps "IFLT(....)" ["I"; "F"; "L"; "T"]%char
             [list_ascii_of_string s] ("IFLT" ++ s)).
  - unfold apply_fmt, call, fmt_IFLT, grp_int16, m_get. cbn [m_groups map nth_error].
    rewrite py_int16_hex; [reflexivity | apply hex_nonempty; lia | exact Hhex].
  - cbn [map]. rewrite <- (length_list_ascii s) in Hlen.
    rewrite Hlen. vm_compute. reflexivity.
  - rewrite list_ascii_of_string_append. simpl. now rewrite app_nil_r.
  - simpl. now rewrite all_hex_dots.
Qed.

Lemma X4_IFLT_any_four_hex_digits_witness :
  response (ref_with "IFLT" "0fA9")
  = Ret (Some (py_str_int (hex_value (list_ascii_of_string "0fA9")))).
Proof.
  apply X4_IFLT_any_four_hex_digits; vm_compute; reflexivity.
Defined.

(** X5 (command.py, [formatters["LSIP(..)(..)(..)(..)"]] through
    [response]): for every response of four groups of two hexadecimal
    digits, [LSIP] decodes to the four base-16 values in decimal, joined by
    dots. *)
Theorem X5_LSIP_any_four_hex_pairs : forall s1 s2 s3 s4,
  String.length s1 = 2%nat -> String.length s2 = 2%nat ->
  String.length s3 = 2%nat -> String.length s4 = 2%nat ->
  all_hex (list_ascii_of_string s1) = true -> all_hex (list_ascii_of_string s2) = true ->
  all_hex (list_ascii_of_string s3) = true -> all_hex (list_ascii_of_string s4) = true ->
  response (ref_with "LSIP" (s1 ++ s2 ++ s3 ++ s4))
  = Ret (Some (py_str_int (hex_value (list_ascii_of_string s1)) ++ "."
               ++ py_str_int (hex_value (list_ascii_of_string s2)) ++ "."
               ++ py_str_int (hex_value (list_ascii_of_string s3)) ++ "."
               ++ py_str_int (hex_value (list_ascii_of_string s4)))).
Proof.
  intros s1 s2 s3 s4 L1 L2 L3 L4 H1 H2 H3 H4. rewrite ref_with_is_loop.
  replace formatters with (firstn 46 formatters
                             ++ ("LSIP(..)(..)(..)(..)", FCall L_LSIP) :: [])%list
    by (vm_compute; reflexivity).
  rewrite format_loop_skip by (apply none_match_sound; vm_compute; reflexivity).
  cbn [format_loop].
  rewrite (re_search_lits_caps "LSIP(..)(..)(..)(..)" ["L"; "S"; "I"; "P"]%char
             [list_ascii_of_string s1; list_ascii_of_string s2;
              list_ascii_of_string s3; list_ascii_of_string s4]).
  - unfold apply_fmt, call, fmt_LSIP, grp_int16, m_get. cbn [m_groups map nth_error].
    rewrite !py_int16_hex; try assumption;
      try (apply hex_nonempty; lia). reflexivity.
  - cbn [map]. rewrite !length_list_ascii, L1, L2, L3, L4. vm_compute. reflexivity.
  - rewrite !list_ascii_of_string_append. simpl. now rewrite app_nil_r.
  - simpl. now rewrite !all_hex_dots.
Qed.

Lemma X5_LSIP_any_four_hex_pairs_witness :
  response (ref_with "LSIP" ("0a" ++ "FF" ++ "10" ++ "7e"))
  = Ret (Some (py_str_int (hex_value (list_ascii_of_string "0a")) ++ "."
               ++ py_str_int (hex_value (list_ascii_of_string "FF")) ++ "."
               ++ py_str_int (hex_value (list_ascii_of_string "10")) ++ "."
               ++ py_str_int (hex_value (list_ascii_of_string "7e")))).
Proof.
  apply X5_LSIP_any_four_hex_pairs; vm_compute; reflexivity.
Defined.

Lemma mtch_lits : forall w ps l,
  mtch (map ALit w ++ ps)%list (w ++ l)%list = mtch ps l.
Proof.
  induction w as [|c w IH]; intros ps l; [reflexivity|].
  simpl. rewrite Ascii.eqb_refl. apply IH.
Qed.

Lemma dot_run_all : forall l, forallb dot l = true -> dot_run l = length l.
Proof.
  induction l as [|c l IH]; intro H; [reflexivity|].
  simpl in H. apply andb_prop in H as [Hc Hl]. simpl. rewrite Hc, IH; auto.
Qed.

(** [(.+)$] on a nonempty line takes all of it. *)
Lemma mtch_plus_all : forall l,
  l <> [] -> forallb dot l = true ->
  mtch [ACapPlus] l = Some ([string_of_list_ascii l], 0%nat).
Proof.
  intros l Hne Hd. cbn [mtch]. rewrite (dot_run_all l Hd).
  destruct (length l) as [|k] eqn:E.
  - apply length_zero_iff_nil in E. contradiction.
  - cbn [greedy]. rewrite <- E, skipn_all, firstn_all. reflexivity.
Qed.

Lemma re_search_lits_plus : forall p w l s,
  re_pattern p = Some (map ALit w ++ [ACapPlus])%list ->
  list_ascii_of_string s = (w ++ l)%list -> l <> [] -> forallb dot l = true ->
  re_search p s = Some {| m_whole := s; m_groups := [string_of_list_ascii l] |}.
Proof.
  intros p w l s Hp Hs Hne Hd. unfold re_search.
  rewrite Hp, Hs, mtch_lits, mtch_plus_all by assumption.
  rewrite PeanoNat.Nat.sub_0_r, substring_0_length. reflexivity.
Qed.

(** X6 (command.py, [formatters["MD(.+)"]] through [response]): for every
    nonempty model response on one line, [MD] decodes to the response with
    the surrounding whitespace stripped. *)
Theorem X6_MD_model_stripped : forall s,
  s <> EmptyString -> forallb dot (list_ascii_of_string s) = true ->
  response (ref_with "MD" s) = Ret (Some (py_strip s)).
Proof.
  intros s Hne Hd. rewrite ref_with_is_loop.
  replace formatters with (firstn 6 formatters ++ ("MD(.+)", FCall L_MD)
                             :: skipn 7 formatters)%list by (vm_compute; reflexivity).
  rewrite format_loop_skip by (apply none_match_sound; vm_compute; reflexivity).
  cbn [format_loop].
  rewrite (re_search_lits_plus "MD(.+)" ["M"; "D"]%char (list_ascii_of_string s)).
  - cbn. rewrite string_of_list_ascii_of_string. reflexivity.
  - vm_compute. reflexivity.
  - now rewrite list_ascii_of_string_append.
  - destruct s; [contradiction | discriminate].
  - exact Hd.
Qed.

Lemma X6_MD_model_stripped_witness :
  response (ref_with "MD" " ILAFPJ -- B2A1 ") = Ret (Some (py_strip " ILAFPJ -- B2A1 ")).
Proof. apply X6_MD_model_stripped; [discriminate | vm_compute; reflexivity]. Defined.

Lemma squeeze_dashes_ok : forall l prev,
  no_double_dash (squeeze_dashes prev l) = true /\
  (prev = true -> starts_with_dash (squeeze_dashes prev l) = false).
Proof.
  induction l as [|c l IH]; intro prev; [split; reflexivity|].
  cbn [squeeze_dashes]. destruct (Ascii.eqb c "-") eqn:Ec.
  - destruct prev.
    + exact (IH true).
    + destruct (IH true) as [H1 H2]. split; [|discriminate].
      specialize (H2 eq_refl).
      destruct (squeeze_dashes true l) as [|d t]; [reflexivity|].
      simpl in H2.
      change (negb (Ascii.eqb c "-" && Ascii.eqb d "-") && no_double_dash (d :: t) = true).
      rewrite Ec, H2. cbn [negb andb]. exact H1.
  - split; [|intros _; simpl; exact Ec].
    destruct (IH false) as [H1 _].
    destruct (squeeze_dashes false l) as [|d t]; [reflexivity|].
    change (negb (Ascii.eqb c "-" && Ascii.eqb d "-") && no_double_dash (d :: t) = true).
    rewrite Ec. cbn [negb andb]. exact H1.
Qed.

Lemma squeeze_dashes_in : forall l prev c, In c (squeeze_dashes prev l) -> In c l.
Proof.
  induction l as [|a l IH]; intros prev c H; [exact H|].
  cbn [squeeze_dashes] in H.
  destruct (Ascii.eqb a "-"); [destruct prev|];
    try (destruct H as [<- | H]; [now left|]); right; eapply IH; exact H.
Qed.

Lemma space_to_dash_no_space : forall l, ~ In " "%char (space_to_dash l).
Proof.
  intros l H. unfold space_to_dash in H. apply in_map_iff in H as (c & Hc & _).
  destruct (Ascii.eqb c " ") eqn:E; [discriminate|].
  subst c. discriminate.
Qed.

(** X7 (command.py, [formatters["LSMA(.+)"]] through [response]): for
    every nonempty response on one line, [LSMA] decodes to a text without
    spaces in which no two dashes are adjacent. *)
Theorem X7_LSMA_no_space_no_double_dash : forall s,
  s <> EmptyString -> forallb dot (list_ascii_of_string s) = true ->
  exists v, response (ref_with "LSMA" s) = Ret (Some v) /\
            ~ In " "%char (list_ascii_of_string v) /\
            no_double_dash (list_ascii_of_string v) = true.
Proof.
  intros s Hne Hd. rewrite ref_with_is_loop.
  replace formatters with (firstn 45 formatters ++ ("LSMA(.+)", FCall L_LSMA)
                             :: skipn 46 formatters)%list by (vm_compute; reflexivity).
  rewrite format_loop_skip by (apply none_match_sound; vm_compute; reflexivity).
  cbn [format_loop].
  rewrite (re_search_lits_plus "LSMA(.+)" ["L"; "S"; "M"; "A"]%char (list_ascii_of_string s)).
  - cbn [apply_fmt call fmt_LSMA m_get m_groups nth_error].
    rewrite string_of_list_ascii_of_string.
    eexists. split; [reflexivity|]. rewrite list_ascii_of_string_of_list_ascii. split.
    + intro H. apply squeeze_dashes_in in H. exact (space_to_dash_no_space _ H).
    + apply squeeze_dashes_ok.
  - vm_compute. reflexivity.
  - now rewrite list_ascii_of_string_append.
  - destruct s; [contradiction | discriminate].
  - exact Hd.
Qed.

Lemma X7_LSMA_no_space_no_double_dash_witness :
  exists v, response (ref_with "LSMA" "aa - bb--  cc") = Ret (Some v) /\
            ~ In " "%char (list_ascii_of_string v) /\
            no_double_dash (list_ascii_of_string v) = true.
Proof.
  apply X7_LSMA_no_space_no_double_dash; [discriminate | vm_compute; reflexivity].
Defined.

(** ** Properties of the Home Assistant layer *)

Lemma dict_get_in : forall {V} (d : list (string * V)) key v,
  dict_get d key = Some v -> In (key, v) d.
Proof.
  induction d as [|[k' v'] d IH]; intros key v H; simpl in H; [discriminate|].
  destruct (String.eqb_spec key k') as [->|_].
  - injection H as ->. now left.
  - right. now apply IH.
Qed.












Lemma issubclass_auth : forall c,
  issubclass c CJvcProjectorAuthError = true <-> c = CJvcProjectorAuthError.
Proof. intros []; split; intro H; try discriminate; reflexivity. Qed.

(** X9 (coordinator.py, [_async_update_data]): a poll ends in
    [ConfigEntryAuthFailed] exactly when connecting, or reading the base
    state, raises [JvcProjectorAuthError]; no failure of the polls made
    while the projector is on does. *)
Theorem X9_poll_auth_failed_iff : forall k dev,
  async_update_data k dev = AuthFailed <->
  dev_connect dev = Some (PJvcError CJvcProjectorAuthError) \/
  (dev_connect dev = None /\ dev_get_state dev = IRaise (PJvcError CJvcProjectorAuthError)).
Proof.
  intros k dev. unfold async_update_data.
  destruct (dev_connect dev) as [e|].
  - destruct e as [|c|]; simpl; split; intro H; try discriminate;
      try (destruct H as [H|[H _]]; discriminate).
    + destruct (issubclass c CJvcProjectorAuthError) eqn:E; [|discriminate].
      apply issubclass_auth in E. subst. now left.
    + destruct H as [H|[H _]]; [|discriminate]. injection H as ->. reflexivity.
  - destruct (dev_get_state dev) as [st|e].
    + split; [destruct (power_on_in _); discriminate|].
      intros [H|[_ H]]; discriminate.
    + destruct e as [|c|]; simpl; split; intro H; try discriminate;
        try (destruct H as [H|[_ H]]; discriminate).
      * destruct (issubclass c CJvcProjectorAuthError) eqn:E; [|discriminate].
        apply issubclass_auth in E. subst. right. now split.
      * destruct H as [H|[_ H]]; [discriminate|]. injection H as ->. reflexivity.
Qed.




























(** X17 (remote.py, [JvcProjectorRemote.is_on], and binary_sensor.py, the
    power sensor's [value_fn]): on any data the remote is on exactly when
    the power sensor reads on; when that sensor has no value the remote is
    off. *)
Theorem X17_remote_agrees_with_power_sensor : forall data,
  remote_is_on data = match binary_power_is_on data with Some b => b | None => false end.
Proof.
  intro data. unfold remote_is_on, binary_power_is_on.
  destruct (dict_get data const_POWER) as [[s|z]|]; try reflexivity.
  - simpl. destruct (String.eqb_spec s EmptyString) as [->|Hne]; [reflexivity|].
    reflexivity.
  - simpl. destruct (Z.eqb z 0); reflexivity.
Qed.




(** ** Properties of the remote's command resolution *)

Lemma ascii_case_facts : forall c,
  ascii_lower (ascii_lower c) = ascii_lower c /\
  ascii_upper (ascii_lower c) = ascii_upper c /\
  ascii_upper (ascii_upper c) = ascii_upper c /\
  ascii_lower (ascii_upper c) = ascii_lower c.
Proof.
  intros c. destruct c as [[] [] [] [] [] [] [] []]; vm_compute; repeat split.
Qed.

Lemma py_lower_idem : forall s, py_lower (py_lower s) = py_lower s.
Proof.
  induction s as [|c s IH]; [reflexivity|]. simpl. rewrite IH.
  now destruct (ascii_case_facts c) as [-> _].
Qed.

Lemma py_upper_lower : forall s, py_upper (py_lower s) = py_upper s.
Proof.
  induction s as [|c s IH]; [reflexivity|]. simpl. rewrite IH.
  now destruct (ascii_case_facts c) as [_ [-> _]].
Qed.

Lemma py_upper_idem : forall s, py_upper (py_upper s) = py_upper s.
Proof.
  induction s as [|c s IH]; [reflexivity|]. simpl. rewrite IH.
  now destruct (ascii_case_facts c) as [_ [_ [-> _]]].
Qed.

Lemma py_lower_upper : forall s, py_lower (py_upper s) = py_lower s.
Proof.
  induction s as [|c s IH]; [reflexivity|]. simpl. rewrite IH.
  now destruct (ascii_case_facts c) as [_ [_ [_ ->]]].
Qed.

Lemma hex_char_lower_upper : forall c,
  existsb (Ascii.eqb (ascii_lower c))
    (list_ascii_of_string "0123456789ABCDEFabcdef") =
  existsb (Ascii.eqb c) (list_ascii_of_string "0123456789ABCDEFabcdef") /\
  existsb (Ascii.eqb (ascii_upper c))
    (list_ascii_of_string "0123456789ABCDEFabcdef") =
  existsb (Ascii.eqb c) (list_ascii_of_string "0123456789ABCDEFabcdef").
Proof.
  intros c. destruct c as [[] [] [] [] [] [] [] []]; vm_compute; split; reflexivity.
Qed.

Lemma is_raw_code_case : forall s,
  is_raw_code (py_lower s) = is_raw_code s /\
  is_raw_code (py_upper s) = is_raw_code s.
Proof.
  assert (Hl : forall s, String.length (py_lower s) = String.length s /\
                         String.length (py_upper s) = String.length s).
  { induction s as [|c s IH]; [split; reflexivity|]. simpl.
    destruct IH as [-> ->]. split; reflexivity. }
  assert (Hf : forall (f : ascii -> bool),
    (forall c, f (ascii_lower c) = f c /\ f (ascii_upper c) = f c) ->
    forall s, forallb f (list_ascii_of_string (py_lower s)) =
              forallb f (list_ascii_of_string s) /\
              forallb f (list_ascii_of_string (py_upper s)) =
              forallb f (list_ascii_of_string s)).
  { intros f Hc. induction s as [|c s IH]; [split; reflexivity|].
    cbn [py_lower py_upper list_ascii_of_string forallb].
    destruct IH as [-> ->]. destruct (Hc c) as [-> ->].
    split; reflexivity. }
  intros s. unfold is_raw_code. destruct (Hl s) as [-> ->].
  destruct (Hf _ hex_char_lower_upper s) as [-> ->]. split; reflexivity.
Qed.

Lemma prefix_length : forall p s,
  String.prefix p s = true -> (String.length p <= String.length s)%nat.
Proof.
  induction p as [|c p IH]; intros s H; simpl; [lia|].
  destruct s as [|c' s]; simpl in H; [discriminate|].
  destruct (ascii_dec c c'); [|discriminate]. simpl. apply IH in H. lia.
Qed.

Lemma const_attrs_objects : forall k,
  In (k, AObj) const_attrs -> k = "REMOTE_BUTTON_MAP" \/ py_upper k <> k.
Proof.
  intros k H. unfold const_attrs in H.
  repeat (destruct H as [H|H];
          [injection H as <-; first [left; reflexivity | right; discriminate]
          | ]);
  contradiction.
Qed.

Lemma button_keys_not_raw : forall k v,
  In (k, v) REMOTE_BUTTON_MAP -> is_raw_code k = false.
Proof.
  intros k v H.
  assert (Hall : forallb (fun kv => negb (is_raw_code (fst kv)))
                   REMOTE_BUTTON_MAP = true) by (vm_compute; reflexivity).
  rewrite forallb_forall in Hall. apply Hall in H. simpl in H.
  now destruct (is_raw_code k).
Qed.

Lemma const_names_not_raw : forall k a,
  In (k, a) const_attrs -> is_raw_code k = false.
Proof.
  intros k a H.
  assert (Hall : forallb (fun kv => negb (is_raw_code (fst kv)))
                   const_attrs = true) by (vm_compute; reflexivity).
  rewrite forallb_forall in Hall. apply Hall in H. simpl in H.
  now destruct (is_raw_code k).
Qed.

Lemma in_map_snd : forall {A B} (l : list (A * B)) a b,
  In (a, b) l -> In b (map snd l).
Proof. intros A B l a b H. apply in_map_iff. now exists (a, b). Qed.

Lemma send_keys_trace : forall cmds acc a sent a' raised,
  send_keys cmds acc a = (sent, a', raised) ->
  exists done, sent = (acc ++ done)%list /\
    if raised then
      exists pre bad post, cmds = (pre ++ bad :: post)%list /\
        resolve_remote bad = None /\ map resolve_remote pre = map Some done
    else map resolve_remote cmds = map Some done.
Proof.
  induction cmds as [|cmd rest IH]; intros acc a sent a' raised H;
    cbn [send_keys] in H.
  - injection H as <- <- <-. exists []. split; [now rewrite app_nil_r|].
    reflexivity.
  - destruct (resolve_remote cmd) as [key_code|] eqn:Ec.
    + apply IH in H as [done [-> Hd]]. exists (key_code :: done).
      split; [now rewrite <- app_assoc|].
      destruct raised.
      * destruct Hd as [pre [bad [post [-> [Hb Hp]]]]].
        exists (cmd :: pre), bad, post. cbn [map app]. rewrite Ec, Hp. auto.
      * cbn [map]. now rewrite Ec, Hd.
    + injection H as <- <- <-. exists []. rewrite app_nil_r. split; [reflexivity|].
      exists [], cmd, rest. auto.
Qed.

Lemma send_keys_activity : forall cmds acc a sent a' raised,
  send_keys cmds acc a = (sent, a', raised) ->
  a' = a \/ exists c, In c cmds /\ a' = Some (py_lower c) /\
                      In (py_lower c) (map fst REMOTE_BUTTON_MAP).
Proof.
  induction cmds as [|cmd rest IH]; intros acc a sent a' raised H;
    cbn [send_keys] in H.
  - injection H as _ <- _. now left.
  - destruct (resolve_remote cmd) as [key_code|].
    + apply IH in H as [Ha|[c [Hc Ha]]].
      * destruct (dict_get REMOTE_BUTTON_MAP (py_lower cmd)) as [v|] eqn:Ev.
        -- right. exists cmd. split; [now left|]. split; [exact Ha|].
           apply dict_get_in in Ev. apply in_map_iff. now exists (py_lower cmd, v).
        -- now left.
      * right. exists c. split; [now right|]. exact Ha.
    + injection H as _ <- _. now left.
Qed.

(** X19 (remote.py, [async_send_command]): the resolution of a command
    does not depend on its letter case: an ASCII command resolves to the
    same key code (or the same [ValueError]) as its lower-case form. *)
Theorem X19_remote_case_insensitive : forall cmd,
  is_ascii_str cmd = true ->
  resolve_remote cmd = resolve_remote (py_lower cmd).
Proof.
  intros cmd _. unfold resolve_remote.
  rewrite py_lower_idem, py_upper_lower.
  now rewrite (proj1 (is_raw_code_case cmd)).
Qed.

Lemma X19_remote_case_insensitive_witness :
  is_ascii_str "Remote_MENU" = true /\
  resolve_remote "Remote_MENU" = resolve_remote (py_lower "Remote_MENU").
Proof.
  split; [reflexivity|].
  apply X19_remote_case_insensitive. reflexivity.
Defined.

(** X20 (remote.py, [async_send_command]): every key code passed to
    [device.remote] is a string: an IR code of [REMOTE_BUTTON_MAP], the
    value of the string constant of [const] named by [cmd.upper()] (which
    need not be an IR code, e.g. [OFF = "off"]), or the upper-cased raw
    4-character hex command.  The dict [REMOTE_BUTTON_MAP] itself, the one
    upper-case non-string attribute of [const], is never sent: its name
    starts with [remote_] once lowered and raises [ValueError]. *)
Theorem X20_remote_key_code_range : forall cmd key_code,
  resolve_remote cmd = Some key_code ->
  exists s, key_code = AStr s /\
    (In s (map snd REMOTE_BUTTON_MAP) \/
     In (py_upper cmd, AStr s) const_attrs \/
     (is_raw_code cmd = true /\ s = py_upper cmd)).
Proof.
  intros cmd key_code H. unfold resolve_remote in H.
  destruct (dict_get REMOTE_BUTTON_MAP (py_lower cmd)) as [v|] eqn:E1.
  { injection H as <-. exists v. split; [reflexivity|]. left.
    apply dict_get_in in E1. exact (in_map_snd _ _ _ E1). }
  destruct (String.prefix "remote_" (py_lower cmd)) eqn:Ep.
  { destruct (dict_get REMOTE_BUTTON_MAP
              (substring 7 (String.length (py_lower cmd) - 7) (py_lower cmd)))
      as [v|] eqn:E2; [|discriminate].
    injection H as <-. exists v. split; [reflexivity|]. left.
    apply dict_get_in in E2. exact (in_map_snd _ _ _ E2). }
  destruct (dict_get const_attrs (py_upper cmd)) as [a|] eqn:E3.
  - injection H as <-. apply dict_get_in in E3.
    destruct a as [s|].
    + exists s. split; [reflexivity|]. right. now left.
    + exfalso. destruct (const_attrs_objects _ E3) as [Hk|Hk].
      * assert (Hl : py_lower cmd = "remote_button_map").
        { rewrite <- py_lower_upper, Hk. reflexivity. }
        rewrite Hl in Ep. discriminate.
      * apply Hk. apply py_upper_idem.
  - destruct (is_raw_code cmd) eqn:Er; [|discriminate].
    injection H as <-. exists (py_upper cmd). split; [reflexivity|].
    right. right. now split.
Qed.

Lemma X20_remote_key_code_range_witness :
  resolve_remote "Off" = Some (AStr "off") /\
  exists s, AStr "off" = AStr s /\
    (In s (map snd REMOTE_BUTTON_MAP) \/
     In (py_upper "Off", AStr s) const_attrs \/
     (is_raw_code "Off" = true /\ s = py_upper "Off")).
Proof.
  split; [vm_compute; reflexivity|].
  apply X20_remote_key_code_range. vm_compute. reflexivity.
Defined.

(** X21 (remote.py, [async_send_command], with [REMOTE_BUTTON_MAP] of
    jvcprojector/const.py): every [REMOTE_*] constant of [const], given by
    its name, resolves to its own IR code (through the [remote_] prefix
    branch and the button map). *)
Theorem X21_remote_constant_names_resolve : forall name code,
  In (name, AStr code) const_attrs ->
  String.prefix "REMOTE_" name = true ->
  resolve_remote name = Some (AStr code).
Proof.
  intros name code H Hp. unfold const_attrs in H.
  repeat (destruct H as [H|H];
          [first [discriminate H | injection H as <- <-];
           vm_compute in Hp |- *; first [reflexivity | discriminate]
          | ]);
  contradiction.
Qed.

Lemma X21_remote_constant_names_resolve_witness :
  In ("REMOTE_3D_FORMAT", AStr "73D6") const_attrs /\
  String.prefix "REMOTE_" "REMOTE_3D_FORMAT" = true /\
  resolve_remote "REMOTE_3D_FORMAT" = Some (AStr "73D6").
Proof.
  assert (Hin : In ("REMOTE_3D_FORMAT", AStr "73D6") const_attrs).
  { unfold const_attrs. repeat (first [left; reflexivity | right]). }
  split; [exact Hin|]. split; [reflexivity|].
  apply X21_remote_constant_names_resolve; [exact Hin | reflexivity].
Defined.

(** X22 (remote.py, [async_send_command]): a raw 4-character hex code is
    never shadowed by a button name or a constant of [const]: it is always
    sent upper-cased. *)
Theorem X22_remote_raw_code_sent_upper : forall cmd,
  is_raw_code cmd = true ->
  resolve_remote cmd = Some (AStr (py_upper cmd)).
Proof.
  intros cmd Hr. unfold resolve_remote.
  destruct (dict_get REMOTE_BUTTON_MAP (py_lower cmd)) as [v|] eqn:E1.
  { apply dict_get_in, button_keys_not_raw in E1.
    rewrite (proj1 (is_raw_code_case cmd)), Hr in E1. discriminate. }
  destruct (String.prefix "remote_" (py_lower cmd)) eqn:Ep.
  { apply prefix_length in Ep.
    unfold is_raw_code in Hr. apply andb_prop in Hr as [Hl _].
    apply Nat.eqb_eq in Hl.
    assert (Hlen : String.length (py_lower cmd) = String.length cmd).
    { clear. induction cmd as [|c s IH]; simpl; congruence. }
    rewrite Hlen, Hl in Ep. simpl in Ep. lia. }
  destruct (dict_get const_attrs (py_upper cmd)) as [a|] eqn:E3.
  { apply dict_get_in, const_names_not_raw in E3.
    rewrite (proj2 (is_raw_code_case cmd)), Hr in E3. discriminate. }
  now rewrite Hr.
Qed.

Lemma X22_remote_raw_code_sent_upper_witness :
  is_raw_code "73d6" = true /\ resolve_remote "73d6" = Some (AStr "73D6").
Proof.
  split; [reflexivity|].
  apply (X22_remote_raw_code_sent_upper "73d6"). reflexivity.
Defined.

(** X23 (remote.py, [async_send_command]): the keys are sent one by one;
    an unknown command raises [ValueError] after the keys of all earlier
    commands were already sent, and a call that does not raise sends the
    key code of every command, in order. *)
Theorem X23_remote_send_prefix : forall command activity sent activity' raised,
  async_send_command command activity = (sent, activity', raised) ->
  if raised then
    exists pre bad post, command = (pre ++ bad :: post)%list /\
      resolve_remote bad = None /\ map resolve_remote pre = map Some sent
  else map resolve_remote command = map Some sent.
Proof.
  intros command activity sent activity' raised H.
  apply send_keys_trace in H as [done [Hs Hd]].
  simpl in Hs. subst sent. exact Hd.
Qed.

Lemma X23_remote_send_prefix_witness :
  async_send_command ["menu"; "bogus"; "up"] None =
    ([AStr "732E"], Some "menu", true) /\
  exists pre bad post, ["menu"; "bogus"; "up"] = (pre ++ bad :: post)%list /\
    resolve_remote bad = None /\ map resolve_remote pre = map Some [AStr "732E"].
Proof.
  assert (H : async_send_command ["menu"; "bogus"; "up"] None =
                ([AStr "732E"], Some "menu", true)) by (vm_compute; reflexivity).
  split; [exact H|].
  exact (X23_remote_send_prefix _ _ _ _ _ H).
Defined.

(** X24 (remote.py, [async_send_command] and [current_activity]): the
    activity after a call is the one before it, or the lower-cased form of
    one of the commands that is a button name of [REMOTE_BUTTON_MAP]
    (an entry of [activity_list]); a [REMOTE_*] name or a raw hex code
    never becomes the current activity. *)
Theorem X24_remote_activity_is_button : forall command activity sent activity' raised,
  async_send_command command activity = (sent, activity', raised) ->
  activity' = activity \/
  exists c, In c command /\ activity' = Some (py_lower c) /\
            In (py_lower c) (map fst REMOTE_BUTTON_MAP).
Proof.
  intros command activity sent activity' raised H.
  exact (send_keys_activity _ _ _ _ _ _ H).
Qed.

Lemma X24_remote_activity_is_button_witness :
  async_send_command ["MENU"; "REMOTE_UP"; "732e"] None =
    ([AStr "732E"; AStr "7301"; AStr "732E"], Some "menu", false) /\
  (Some "menu" = None \/
   exists c, In c ["MENU"; "REMOTE_UP"; "732e"] /\ Some "menu" = Some (py_lower c) /\
             In (py_lower c) (map fst REMOTE_BUTTON_MAP)).
Proof.
  assert (H : async_send_command ["MENU"; "REMOTE_UP"; "732e"] None =
                ([AStr "732E"; AStr "7301"; AStr "732E"], Some "menu", false))
    by (vm_compute; reflexivity).
  split; [exact H|].
  exact (X24_remote_activity_is_button _ _ _ _ _ H).
Defined.

(** ** Properties of the LD power number entity *)

Lemma number_round_trip_all :
  forallb number_round_trip_ok (map Z.of_nat (seq 1 100)) = true.
Proof. vm_compute. reflexivity. Qed.

(** X25 (number.py, [JvcNumber.async_set_native_value] and
    [JvcNumber.native_value], in binary64 floating point): setting the LD
    power slider to an integer [z] in [1..100] stores a protocol value in
    [109..219], sends it as four upper-case hex digits that parse back to
    it, and [native_value] then reads back exactly [z]. *)
Theorem X25_number_round_trip : forall z,
  (1 <= z <= 100)%Z ->
  exists p hex,
    number_set_native_value (py_float_of_int z) = Some (p, hex) /\
    (LD_CURRENT_MIN <= p <= LD_CURRENT_MAX)%Z /\
    String.length hex = 4%nat /\ py_int16 hex = Some p /\
    number_native_value (Some p) = Some z.
Proof.
  intros z Hz.
  assert (Hin : In z (map Z.of_nat (seq 1 100))).
  { apply in_map_iff. exists (Z.to_nat z). split; [lia|].
    apply in_seq. lia. }
  pose proof (proj1 (forallb_forall _ _) number_round_trip_all z Hin) as Hok.
  unfold number_round_trip_ok in Hok.
  destruct (number_set_native_value (py_float_of_int z)) as [[p hex]|];
    [|discriminate].
  exists p, hex.
  repeat rewrite andb_true_iff in Hok.
  destruct Hok as [[[[H1 H2] H3] H4] H5].
  apply Z.leb_le in H1. apply Z.leb_le in H2. apply Nat.eqb_eq in H3.
  destruct (py_int16 hex) as [q|]; [|discriminate].
  apply Z.eqb_eq in H4.
  destruct (number_native_value (Some p)) as [z'|]; [|discriminate].
  apply Z.eqb_eq in H5. subst. repeat split; auto.
Qed.

Lemma X25_number_round_trip_witness :
  (1 <= 50 <= 100)%Z /\
  exists p hex,
    number_set_native_value (py_float_of_int 50) = Some (p, hex) /\
    (LD_CURRENT_MIN <= p <= LD_CURRENT_MAX)%Z /\
    String.length hex = 4%nat /\ py_int16 hex = Some p /\
    number_native_value (Some p) = Some 50%Z.
Proof.
  split; [lia|]. apply X25_number_round_trip. lia.
Defined.
